(** * Runtime type introspection utilities: a shallow embedding of [src/index.ts]

    The program classifies arbitrary JavaScript values ([getType],
    [getRealType]), analyses arrays of values ([allItemsHaveTheSameType],
    [everyItemHasAUniqueRealType], [countRealTypes]) and carries a small
    console harness whose comparison helper is [areEqual].

    The functions of the source are embedded under their own names.  The
    built-ins of the language they call ([typeof], [Number.isNaN], [===],
    [Object.prototype.toString], [String.prototype.match] with the pattern of
    the source, [String.prototype.toLowerCase], [Array.prototype.sort],
    [Set], property access on an ordinary object, [Object.entries],
    [JSON.stringify]) are embedded after ECMA-262 in [Module Runtime].

    Conventions of the embedding:
    - a string is its sequence of code units; the embedding keeps the code
      units below 256 (one [ascii] each);
    - a number is an IEEE-754 binary64 datum ([spec_float]);
    - a call either returns or throws ([Outcome]);
    - an object is its identity together with what the built-ins above
      observe of it; the standard prototypes are taken as shipped, an
      accessor is represented by its outcome, and no call changes a value. *)

From Stdlib Require Import Bool Arith PeanoNat ZArith Lia List Ascii String.
From Stdlib Require Import Floats.SpecFloat.
From Stdlib Require Import Sorting.Sorted Sorting.Permutation.
Import ListNotations.

Local Open Scope list_scope.
Local Open Scope string_scope.

#[local] Set Warnings "-register-all".

(** ** Outcomes of a call *)

Inductive JsError : Type :=
| TypeError.

Inductive Outcome (A : Type) : Type :=
| Returns (a : A)
| Throws (e : JsError).

Arguments Returns {A} a.
Arguments Throws {A} e.

Definition bind {A B : Type} (c : Outcome A) (k : A -> Outcome B) : Outcome B :=
  match c with
  | Returns a => k a
  | Throws e => Throws e
  end.

Notation "x <- c ;; k" := (bind c (fun x => k))
  (at level 61, c at next level, right associativity).

(** [arr.map(f)] for a callback that may throw: elements are visited from the
    left and the first exception aborts the traversal. *)
Fixpoint Array_map {A B : Type} (f : A -> Outcome B) (arr : list A) : Outcome (list B) :=
  match arr with
  | [] => Returns []
  | v :: rest =>
      t <- f v ;;
      ts <- Array_map f rest ;;
      Returns (t :: ts)
  end.

(** ** Values *)

(** The class of a non-array object, as far as [typeof] and the built-in tag
    of [Object.prototype.toString] tell classes apart. *)
Inductive Class : Type :=
| CArguments
| CFunction
| CError
| CBoolean
| CNumber
| CString
| CDate
| CRegExp
| COrdinary.

(** Outcome of reading the property [Symbol.toStringTag] of an object. *)
Inductive TagLookup : Type :=
| TagAbsent
| TagString (s : string)
| TagThrows.

(** Outcome of serialising a non-array object as a JSON property. *)
Inductive JsonOutcome : Type :=
| JsonText (s : string)
| JsonUndefined
| JsonThrows.

Inductive Value : Type :=
| VUndefined
| VNull
| VBoolean (b : bool)
| VNumber (x : spec_float)
| VString (s : string)
| VSymbol (key : nat)
| VBigInt (n : Z)
| VArray (ref : nat) (tag : TagLookup) (items : list Value)
| VObject (ref : nat) (cls : Class) (tag : TagLookup) (json : JsonOutcome).

Definition NaN : spec_float := S754_nan.
Definition Infinity : spec_float := S754_infinity false.
Definition NegInfinity : spec_float := S754_infinity true.

Module Runtime.

(** *** Characters *)

Definition code (c : ascii) : nat := nat_of_ascii c.

Definition is_upper (c : ascii) : bool := ((65 <=? code c) && (code c <=? 90))%nat.
Definition is_lower (c : ascii) : bool := ((97 <=? code c) && (code c <=? 122))%nat.

(** The class [[a-zA-Z]]. *)
Definition is_letter (c : ascii) : bool := is_lower c || is_upper c.

(** The class [\s], on code units below 256: tab, line feed, vertical tab,
    form feed, carriage return, space and no-break space. *)
Definition is_whitespace (c : ascii) : bool :=
  (((9 <=? code c) && (code c <=? 13)) || (code c =? 32) || (code c =? 160))%nat.

(** Lower-case mapping of one code unit below 256: the letters A-Z and the
    Latin-1 capitals U+00C0..U+00DE (the multiplication sign apart) move up
    by 32. *)
Definition lower_char (c : ascii) : ascii :=
  if is_upper c
     || ((192 <=? code c) && (code c <=? 222) && negb (code c =? 215))%nat
  then ascii_of_nat (code c + 32)
  else c.

Fixpoint String_toLowerCase (s : string) : string :=
  match s with
  | EmptyString => EmptyString
  | String c rest => String (lower_char c) (String_toLowerCase rest)
  end.

(** *** The pattern [/\s([a-zA-Z]+)/] *)

(** Longest run of letters at the head of [s]: what the greedy group
    [([a-zA-Z]+)] consumes. *)
Fixpoint letters_prefix (s : string) : string :=
  match s with
  | EmptyString => EmptyString
  | String c rest => if is_letter c then String c (letters_prefix rest) else EmptyString
  end.

(** [s.match(/\s([a-zA-Z]+)/)], reduced to its capture group 1.  The pattern
    is not global, so the leftmost match is taken: the first white-space
    code unit that is followed by a letter.  [None] is the [null] result. *)
Fixpoint String_match (s : string) : option string :=
  match s with
  | EmptyString => None
  | String c rest =>
      if is_whitespace c then
        match letters_prefix rest with
        | EmptyString => String_match rest
        | group => Some group
        end
      else String_match rest
  end.

(** Indexing the match result with [[1]]: a [null] result has no
    properties and reading one throws. *)
Definition group1 (m : option string) : Outcome string :=
  match m with
  | Some g => Returns g
  | None => Throws TypeError
  end.

(** *** [typeof], [Number.isNaN], [===] *)

Definition typeof (v : Value) : string :=
  match v with
  | VUndefined => "undefined"
  | VNull => "object"
  | VBoolean _ => "boolean"
  | VNumber _ => "number"
  | VString _ => "string"
  | VSymbol _ => "symbol"
  | VBigInt _ => "bigint"
  | VArray _ _ _ => "object"
  | VObject _ CFunction _ _ => "function"
  | VObject _ _ _ _ => "object"
  end.

Definition Number_isNaN (v : Value) : bool :=
  match v with
  | VNumber S754_nan => true
  | _ => false
  end.

(** IEEE equality of two numbers: [NaN] equals nothing, the two zeros are
    equal. *)
Definition Number_equal (x y : spec_float) : bool := SFeqb x y.

Definition strict_equal (a b : Value) : bool :=
  match a, b with
  | VUndefined, VUndefined => true
  | VNull, VNull => true
  | VBoolean x, VBoolean y => Bool.eqb x y
  | VNumber x, VNumber y => Number_equal x y
  | VString x, VString y => String.eqb x y
  | VSymbol x, VSymbol y => Nat.eqb x y
  | VBigInt x, VBigInt y => Z.eqb x y
  | VArray r _ _, VArray r' _ _ => Nat.eqb r r'
  | VObject r _ _ _, VObject r' _ _ _ => Nat.eqb r r'
  | _, _ => false
  end.

Definition Array_isArray (v : Value) : bool :=
  match v with
  | VArray _ _ _ => true
  | _ => false
  end.

(** *** [Object.prototype.toString] *)

Definition builtinTag (c : Class) : string :=
  match c with
  | CArguments => "Arguments"
  | CFunction => "Function"
  | CError => "Error"
  | CBoolean => "Boolean"
  | CNumber => "Number"
  | CString => "String"
  | CDate => "Date"
  | CRegExp => "RegExp"
  | COrdinary => "Object"
  end.

(** The tag of an object: its [Symbol.toStringTag] when that is a string,
    the built-in tag otherwise; reading the property may throw. *)
Definition resolve_tag (builtin : string) (tag : TagLookup) : Outcome string :=
  match tag with
  | TagAbsent => Returns builtin
  | TagString s => Returns s
  | TagThrows => Throws TypeError
  end.

(** The internal runtime tag of a value.  Primitives are wrapped first;
    [Symbol.prototype] and [BigInt.prototype] carry a [Symbol.toStringTag]. *)
Definition internal_tag (v : Value) : Outcome string :=
  match v with
  | VUndefined => Returns "Undefined"
  | VNull => Returns "Null"
  | VBoolean _ => Returns "Boolean"
  | VNumber _ => Returns "Number"
  | VString _ => Returns "String"
  | VSymbol _ => Returns "Symbol"
  | VBigInt _ => Returns "BigInt"
  | VArray _ tag _ => resolve_tag "Array" tag
  | VObject _ c tag _ => resolve_tag (builtinTag c) tag
  end.

Definition Object_prototype_toString (v : Value) : Outcome string :=
  tag <- internal_tag v ;;
  Returns ("[object " ++ tag ++ "]").

(** *** [Set] *)

(** A [Set] of strings, as the list of its members in insertion order. *)
Definition JsSet : Type := list string.

Definition Set_has (s : JsSet) (x : string) : bool :=
  existsb (String.eqb x) s.

Definition Set_add (s : JsSet) (x : string) : JsSet :=
  if Set_has s x then s else (s ++ [x])%list.

(** [new Set(iterable)]: the members are added from the left. *)
Definition Set_new (xs : list string) : JsSet :=
  fold_left Set_add xs [].

Definition Set_size (s : JsSet) : nat := List.length s.

(** *** [Array.prototype.sort] without a comparator *)

(** The default comparator orders strings by their code units.  ECMA-262
    leaves the sorting algorithm to the implementation and fixes its result;
    here an insertion sort (see [Array_sort_unique]: every ascending
    rearrangement of the array is this one). *)
Fixpoint sort_insert (x : string) (l : list string) : list string :=
  match l with
  | [] => [x]
  | y :: l' => if (x <=? y)%string then x :: l else y :: sort_insert x l'
  end.

Definition Array_sort (l : list string) : list string :=
  fold_right sort_insert [] l.

(** *** An ordinary object used as a dictionary *)

(** The values the program stores in [result]: a number (a count, exact as
    a binary64 below 2^53) or, after [+] met a non-number, a string. *)
Inductive PropValue : Type :=
| PNumber (n : nat)
| PString (s : string).

(** Own properties, in creation order. *)
Definition JsObject : Type := list (string * PropValue).

(** What an object created by [{}] inherits from [Object.prototype]: eleven
    built-in functions and the accessor [__proto__], whose getter returns
    [Object.prototype] itself. *)
Inductive Inherited : Type :=
| InheritedFunction (name : string)
| InheritedPrototype.

Definition Object_prototype_functions : list string :=
  [ "constructor"; "hasOwnProperty"; "isPrototypeOf"; "propertyIsEnumerable";
    "toLocaleString"; "toString"; "valueOf"; "__defineGetter__";
    "__defineSetter__"; "__lookupGetter__"; "__lookupSetter__" ].

Definition Object_prototype_get (key : string) : option Inherited :=
  if (key =? "__proto__")%string then Some InheritedPrototype
  else if (key =? "constructor")%string then Some (InheritedFunction "Object")
  else if existsb (String.eqb key) Object_prototype_functions
       then Some (InheritedFunction key)
       else None.

Fixpoint own_get (o : JsObject) (key : string) : option PropValue :=
  match o with
  | [] => None
  | (k, v) :: rest => if (k =? key)%string then Some v else own_get rest key
  end.

(** Result of [result[key]]. *)
Inductive Got : Type :=
| GotOwn (v : PropValue)
| GotInherited (i : Inherited)
| GotUndefined.

Definition Object_get (o : JsObject) (key : string) : Got :=
  match own_get o key with
  | Some v => GotOwn v
  | None =>
      match Object_prototype_get key with
      | Some i => GotInherited i
      | None => GotUndefined
      end
  end.

(** The source text of a built-in function (as V8 prints it; ECMA-262 fixes
    the shape and leaves the blanks to the implementation). *)
Definition Function_prototype_toString (name : string) : string :=
  "function " ++ name ++ "() { [native code] }".

(** [(got || 0) + 1].  A number stays a number.  A non-empty string, a
    function and an object are truthy and turn [+] into a concatenation,
    the last two through their [toString]. *)
Definition or_zero_plus_one (got : Got) : PropValue :=
  match got with
  | GotOwn (PNumber n) => PNumber (n + 1)
  | GotOwn (PString EmptyString) => PNumber 1
  | GotOwn (PString s) => PString (s ++ "1")
  | GotInherited (InheritedFunction name) =>
      PString (Function_prototype_toString name ++ "1")
  | GotInherited InheritedPrototype => PString ("[object Object]" ++ "1")
  | GotUndefined => PNumber 1
  end.

Fixpoint own_update (o : JsObject) (key : string) (v : PropValue) : JsObject :=
  match o with
  | [] => []
  | (k, w) :: rest =>
      if (k =? key)%string then (k, v) :: rest else (k, w) :: own_update rest key v
  end.

(** [result[key] = v] for a primitive [v]: an own property is overwritten
    in place; otherwise the setter of [__proto__] ignores a primitive, and
    any other key becomes a new own property, created last. *)
Definition Object_set (o : JsObject) (key : string) (v : PropValue) : JsObject :=
  match own_get o key with
  | Some _ => own_update o key v
  | None => if (key =? "__proto__")%string then o else (o ++ [(key, v)])%list
  end.

(** An array index is the canonical decimal numeral of an integer below
    2^32 - 1. *)
Definition is_digit (c : ascii) : bool := ((48 <=? code c) && (code c <=? 57))%nat.

Fixpoint digits_value (s : string) (acc : N) : option N :=
  match s with
  | EmptyString => Some acc
  | String c rest =>
      if is_digit c
      then digits_value rest (acc * 10 + N.of_nat (code c - 48))%N
      else None
  end.

Definition array_index (key : string) : option N :=
  match key with
  | EmptyString => None
  | String c rest =>
      if (code c =? 48)%nat
      then match rest with EmptyString => Some 0%N | _ => None end
      else match digits_value key 0 with
           | Some n => if (n <? 4294967295)%N then Some n else None
           | None => None
           end
  end.

Fixpoint index_insert (i : N) (e : string * PropValue)
    (l : list (N * (string * PropValue))) : list (N * (string * PropValue)) :=
  match l with
  | [] => [(i, e)]
  | (j, f) :: l' => if (i <=? j)%N then (i, e) :: l else (j, f) :: index_insert i e l'
  end.

(** The own properties whose key is an array index, by ascending index. *)
Fixpoint index_entries (o : JsObject) : list (N * (string * PropValue)) :=
  match o with
  | [] => []
  | (k, v) :: rest =>
      match array_index k with
      | Some i => index_insert i (k, v) (index_entries rest)
      | None => index_entries rest
      end
  end.

Definition is_index_key (e : string * PropValue) : bool :=
  match array_index (fst e) with Some _ => true | None => false end.

(** [Object.entries(o)]: array indices first, in ascending order, then the
    other keys in creation order. *)
Definition Object_entries (o : JsObject) : list (string * PropValue) :=
  (map snd (index_entries o) ++ filter (fun e => negb (is_index_key e)) o)%list.

(** *** [Number::toString] in radix 10 *)

Local Open Scope Z_scope.

(** Decimal numeral of a natural number. *)
Fixpoint decimal_digits (fuel : nat) (n : Z) (acc : string) : string :=
  match fuel with
  | O => acc
  | S fuel' =>
      let acc' := String (ascii_of_nat (48 + Z.to_nat (n mod 10))) acc in
      if n <? 10 then acc' else decimal_digits fuel' (n / 10) acc'
  end.

Definition decimal (n : Z) : string :=
  decimal_digits (S (Z.to_nat (Z.log2 n))) n EmptyString.

Fixpoint zeros (n : nat) : string :=
  match n with
  | O => EmptyString
  | S n' => String "0"%char (zeros n')
  end.

(** The binary64 form of [m * 2^e]: a 53-bit significand, or the least
    exponent -1074. *)
Definition canonical (m : positive) (e : Z) : Z * Z :=
  let d := Z.min (52 - Z.log2 (Zpos m)) (e + 1074) in
  if 0 <? d then (Zpos m * 2 ^ d, e - d) else (Zpos m, e).

(** The reals that round to the binary64 [M * 2^E] under round-to-nearest,
    ties to even: the interval from [lo / den] to [hi / den] around
    [mid / den], closed when [M] is even. *)
Record Interval : Type := {
  mid : Z;
  lo : Z;
  hi : Z;
  den : Z;
  closed : bool
}.

Definition rounding_interval (M E : Z) : Interval :=
  let boundary := (M =? 2 ^ 52) && (-1074 <? E) in
  let up := 2 ^ Z.max (E - 2) 0 in
  {| mid := 4 * M * up;
     lo := (if boundary then 4 * M - 1 else 4 * M - 2) * up;
     hi := (4 * M + 2) * up;
     den := 2 ^ Z.max (2 - E) 0;
     closed := Z.even M |}.

Definition ceil_div (a b : Z) : Z := - ((- a) / b).

(** The integer nearest to [a / b], the even one on a tie. *)
Definition nearest (a b : Z) : Z :=
  let c := a / b in
  let r := a mod b in
  if 2 * r <? b then c
  else if b <? 2 * r then c + 1
  else if Z.even c then c else c + 1.

(** The [k]-digit integer [s] nearest to the number such that
    [s * 10^(n-k)] rounds to it, with its distance (in units of
    [10^(n0-k) / den]) when there is one. *)
Definition candidate (I : Interval) (n0 k n : Z) : option (Z * Z * Z) :=
  let q := n - k in
  let A := 10 ^ Z.max (- q) 0 in
  let B := den I * 10 ^ Z.max q 0 in
  let lo_s := if closed I then ceil_div (lo I * A) B else (lo I * A) / B + 1 in
  let hi_s := if closed I then (hi I * A) / B else ceil_div (hi I * A) B - 1 in
  let lo_k := Z.max lo_s (10 ^ (k - 1)) in
  let hi_k := Z.min hi_s (10 ^ k - 1) in
  if hi_k <? lo_k then None
  else
    let s := Z.max lo_k (Z.min hi_k (nearest (mid I * A) B)) in
    let q0 := n0 - k in
    let dist := Z.abs (s * 10 ^ (n - n0) * (den I * 10 ^ Z.max q0 0)
                       - mid I * 10 ^ Z.max (- q0) 0) in
    Some (s, n, dist).

Definition closer (a b : option (Z * Z * Z)) : option (Z * Z * Z) :=
  match a, b with
  | Some (_, _, da), Some (_, _, db) => if db <? da then b else a
  | Some _, None => a
  | None, _ => b
  end.

(** The least [n] with [mid / den < 10^n]. *)
Fixpoint magnitude (fuel : nat) (I : Interval) (n : Z) : Z :=
  match fuel with
  | O => n
  | S fuel' =>
      if mid I * 10 ^ Z.max (- n) 0 <? den I * 10 ^ Z.max n 0 then n
      else magnitude fuel' I (n + 1)
  end.

(** Step 5 of [Number::toString]: integers [n], [k], [s] with [k] least
    such that [s * 10^(n-k)] rounds to the number, [s] with [k] digits;
    among several, the nearest. *)
Fixpoint shortest (fuel : nat) (I : Interval) (nx k : Z) : Z * Z * Z :=
  match fuel with
  | O => (0, k, nx)
  | S fuel' =>
      match closer (closer (candidate I (nx - 1) k (nx - 1))
                           (candidate I (nx - 1) k nx))
                   (candidate I (nx - 1) k (nx + 1)) with
      | Some (s, n, _) => (s, k, n)
      | None => shortest fuel' I nx (k + 1)
      end
  end.

(** Steps 6 to 10: fixed notation for [-6 < n <= 21], exponent notation
    otherwise. *)
Definition render (s k n : Z) : string :=
  let digits := decimal s in
  if (k <=? n) && (n <=? 21) then
    digits ++ zeros (Z.to_nat (n - k))
  else if (0 <? n) && (n <=? 21) then
    substring 0 (Z.to_nat n) digits ++ "."
      ++ substring (Z.to_nat n) (Z.to_nat (k - n)) digits
  else if (-6 <? n) && (n <=? 0) then
    "0." ++ zeros (Z.to_nat (- n)) ++ digits
  else
    let e := n - 1 in
    let exponent := (if e <? 0 then "-" else "+") ++ decimal (Z.abs e) in
    if k =? 1 then digits ++ "e" ++ exponent
    else substring 0 1 digits ++ "." ++ substring 1 (Z.to_nat (k - 1)) digits
           ++ "e" ++ exponent.

Definition Number_toString (x : spec_float) : string :=
  match x with
  | S754_nan => "NaN"
  | S754_zero _ => "0"
  | S754_infinity false => "Infinity"
  | S754_infinity true => "-Infinity"
  | S754_finite sign m e =>
      let '(M, E) := canonical m e in
      let I := rounding_interval M E in
      let '(s, k, n) := shortest 17 I (magnitude 640 I (-324)) 1 in
      (if sign then "-" else "") ++ render s k n
  end.

Local Close Scope Z_scope.

(** *** [JSON.stringify] *)

Definition dquote : ascii := ascii_of_nat 34.
Definition backslash : ascii := ascii_of_nat 92.

Definition hex_digit (n : nat) : ascii :=
  match String.get n "0123456789abcdef" with
  | Some c => c
  | None => "0"%char
  end.

(** One code unit inside a JSON string literal: the short escapes, a
    [\u00xx] escape for the other control characters, itself otherwise. *)
Definition QuoteJSONChar (c : ascii) : string :=
  let n := code c in
  if (n =? 8)%nat then String backslash "b"
  else if (n =? 9)%nat then String backslash "t"
  else if (n =? 10)%nat then String backslash "n"
  else if (n =? 12)%nat then String backslash "f"
  else if (n =? 13)%nat then String backslash "r"
  else if (n =? 34)%nat then String backslash (String dquote EmptyString)
  else if (n =? 92)%nat then String backslash (String backslash EmptyString)
  else if (n <? 32)%nat then
    String backslash
      ("u00" ++ String (hex_digit (n / 16)) (String (hex_digit (n mod 16)) EmptyString))
  else String c EmptyString.

Fixpoint QuoteJSONBody (s : string) : string :=
  match s with
  | EmptyString => EmptyString
  | String c rest => QuoteJSONChar c ++ QuoteJSONBody rest
  end.

Definition QuoteJSONString (s : string) : string :=
  String dquote (QuoteJSONBody s ++ String dquote EmptyString).

Definition is_finite (x : spec_float) : bool :=
  match x with
  | S754_zero _ | S754_finite _ _ _ => true
  | S754_infinity _ | S754_nan => false
  end.

(** An element that serialises to [undefined] is written [null] inside an
    array. *)
Definition element_text (p : option string) : string :=
  match p with
  | Some t => t
  | None => "null"
  end.

(** [SerializeJSONProperty]: [None] is the [undefined] result. *)
Fixpoint SerializeJSONProperty (v : Value) : Outcome (option string) :=
  match v with
  | VUndefined => Returns None
  | VNull => Returns (Some "null")
  | VBoolean b => Returns (Some (if b then "true" else "false"))
  | VNumber x => Returns (Some (if is_finite x then Number_toString x else "null"))
  | VString s => Returns (Some (QuoteJSONString s))
  | VSymbol _ => Returns None
  | VBigInt _ => Throws TypeError
  | VArray _ _ items =>
      parts <- (fix elements (l : list Value) : Outcome (list string) :=
                  match l with
                  | [] => Returns []
                  | x :: rest =>
                      p <- SerializeJSONProperty x ;;
                      ps <- elements rest ;;
                      Returns (element_text p :: ps)
                  end) items ;;
      Returns (Some ("[" ++ String.concat "," parts ++ "]"))
  | VObject _ _ _ json =>
      match json with
      | JsonText s => Returns (Some s)
      | JsonUndefined => Returns None
      | JsonThrows => Throws TypeError
      end
  end.

(** The elements of an array, serialised from the left. *)
Fixpoint SerializeJSONElements (l : list Value) : Outcome (list string) :=
  match l with
  | [] => Returns []
  | x :: rest =>
      p <- SerializeJSONProperty x ;;
      ps <- SerializeJSONElements rest ;;
      Returns (element_text p :: ps)
  end.

Definition JSON_stringify (v : Value) : Outcome (option string) :=
  SerializeJSONProperty v.

(** [===] on two results of [JSON.stringify]. *)
Definition same_text (a b : option string) : bool :=
  match a, b with
  | Some x, Some y => String.eqb x y
  | None, None => true
  | _, _ => false
  end.

Definition Array_length (v : Value) : nat :=
  match v with
  | VArray _ _ items => List.length items
  | _ => 0
  end.

End Runtime.

Import Runtime.

(** ** The functions of the source *)

(** [areEqual], the comparison of the harness. *)
Definition areEqual (a b : Value) : Outcome bool :=
  if Array_isArray a && Array_isArray b then
    if negb (Array_length a =? Array_length b)%nat then Returns false
    else if (Array_length a =? 0)%nat then Returns false
    else
      sa <- JSON_stringify a ;;
      sb <- JSON_stringify b ;;
      Returns (same_text sa sb)
  else Returns (strict_equal a b).

(** [getType]: the native type of a value. *)
Definition getType (value : Value) : string :=
  typeof value.

(** [getTypesOfItems]. *)
Definition getTypesOfItems (arr : list Value) : list string :=
  map getType arr.

(** [getRealType]: [NaN], then [Infinity], then the lower-cased word that
    follows the blank of [Object.prototype.toString.call(value)]. *)
Definition getRealType (value : Value) : Outcome string :=
  if Number_isNaN value then Returns "NaN"
  else if strict_equal value (VNumber Infinity) then Returns "Infinity"
  else
    str <- Object_prototype_toString value ;;
    word <- group1 (String_match str) ;;
    Returns (String_toLowerCase word).

(** [getRealTypesOfItems]. *)
Definition getRealTypesOfItems (arr : list Value) : Outcome (list string) :=
  Array_map getRealType arr.

(** [allItemsHaveTheSameType]. *)
Definition allItemsHaveTheSameType (arr : list Value) : bool :=
  (Set_size (Set_new (getTypesOfItems arr)) =? 1)%nat.

(** [everyItemHasAUniqueRealType]. *)
Definition everyItemHasAUniqueRealType (arr : list Value) : Outcome bool :=
  types <- getRealTypesOfItems arr ;;
  Returns (Set_size (Set_new types) =? List.length arr)%nat.

(** The callback of [forEach] in [countRealTypes]:
    [result[type] = (result[type] || 0) + 1]. *)
Definition count_step (result : JsObject) (type : string) : JsObject :=
  Object_set result type (or_zero_plus_one (Object_get result type)).

(** [countRealTypes]. *)
Definition countRealTypes (arr : list Value) : Outcome (list (string * PropValue)) :=
  types <- getRealTypesOfItems arr ;;
  let result := fold_left count_step (Array_sort types) [] in
  Returns (Object_entries result).

(** ** Predicates used in the statements *)

Fixpoint String_forallb (p : ascii -> bool) (s : string) : bool :=
  match s with
  | EmptyString => true
  | String c rest => p c && String_forallb p rest
  end.

Fixpoint String_existsb (p : ascii -> bool) (s : string) : bool :=
  match s with
  | EmptyString => false
  | String c rest => p c || String_existsb p rest
  end.

(** The control flow of [getRealType] as an evaluation relation: one rule
    per way out of the function body. *)
Inductive classifies (value : Value) : Outcome string -> Prop :=
| classifies_NaN :
    Number_isNaN value = true ->
    classifies value (Returns "NaN")
| classifies_Infinity :
    Number_isNaN value = false ->
    strict_equal value (VNumber Infinity) = true ->
    classifies value (Returns "Infinity")
| classifies_probe_throws e :
    Number_isNaN value = false ->
    strict_equal value (VNumber Infinity) = false ->
    Object_prototype_toString value = Throws e ->
    classifies value (Throws e)
| classifies_no_match str :
    Number_isNaN value = false ->
    strict_equal value (VNumber Infinity) = false ->
    Object_prototype_toString value = Returns str ->
    String_match str = None ->
    classifies value (Throws TypeError)
| classifies_word str word :
    Number_isNaN value = false ->
    strict_equal value (VNumber Infinity) = false ->
    Object_prototype_toString value = Returns str ->
    String_match str = Some word ->
    classifies value (Returns (String_toLowerCase word)).

(** Values whose [Symbol.toStringTag] nobody touched: the primitives, and
    the arrays and objects that show their built-in tag. *)
Definition shows_builtin_tag (v : Value) : bool :=
  match v with
  | VArray _ TagAbsent _ => true
  | VObject _ _ TagAbsent _ => true
  | VArray _ _ _ | VObject _ _ _ _ => false
  | _ => true
  end.

(** The order of strings by code units. *)
Definition String_le (a b : string) : Prop := (a <=? b)%string = true.
Definition String_lt (a b : string) : Prop := (a <? b)%string = true.

(** The dictionary [result]: its keys and its counts. *)
Definition keys (o : JsObject) : list string := map fst o.

(** The number held by a property, when it holds one. *)
Definition count_value (v : PropValue) : option nat :=
  match v with
  | PNumber n => Some n
  | PString _ => None
  end.

(** The sum of the counts of a list of entries, when all are numbers. *)
Fixpoint counts_sum (entries : list (string * PropValue)) : option nat :=
  match entries with
  | [] => Some 0
  | (_, v) :: rest =>
      match count_value v, counts_sum rest with
      | Some n, Some m => Some (n + m)
      | _, _ => None
      end
  end.



(** The shape of the tags [getRealType] returns. *)
Definition tag_like (t : string) : bool :=
  (t =? "NaN")%string || (t =? "Infinity")%string
  || (negb (t =? "")%string && String_forallb is_lower t).

(** Reading a JSON string literal back. *)
Definition hex_value (c : ascii) : option nat :=
  if ((48 <=? code c) && (code c <=? 57))%nat then Some (code c - 48)
  else if ((97 <=? code c) && (code c <=? 102))%nat then Some (code c - 87)
  else None.

(** Reads one quoted code unit back from the head of a JSON text. *)
Definition unquote_char (s : string) : option (ascii * string) :=
  match s with
  | EmptyString => None
  | String h t =>
      if (code h =? 34)%nat then None
      else if (code h =? 92)%nat then
        match t with
        | EmptyString => None
        | String e t' =>
            if (code e =? 98)%nat then Some (ascii_of_nat 8, t')
            else if (code e =? 116)%nat then Some (ascii_of_nat 9, t')
            else if (code e =? 110)%nat then Some (ascii_of_nat 10, t')
            else if (code e =? 102)%nat then Some (ascii_of_nat 12, t')
            else if (code e =? 114)%nat then Some (ascii_of_nat 13, t')
            else if (code e =? 34)%nat then Some (ascii_of_nat 34, t')
            else if (code e =? 92)%nat then Some (ascii_of_nat 92, t')
            else if (code e =? 117)%nat then
              match t' with
              | String _ (String _ (String x (String y t''))) =>
                  match hex_value x, hex_value y with
                  | Some a, Some b => Some (ascii_of_nat (16 * a + b), t'')
                  | _, _ => None
                  end
              | _ => None
              end
            else None
        end
      else Some (h, t)
  end.

(** An object whose [Symbol.toStringTag] is the empty string, as made by
    [{ [Symbol.toStringTag]: '' }]. *)
Definition empty_tag_object : Value :=
  VObject 1 COrdinary (TagString "") (JsonText "{}").

(** A typed array, as made by [new Int8Array()]: its prototype carries the
    [Symbol.toStringTag] ["Int8Array"]. *)
Definition int8array : Value :=
  VObject 1 COrdinary (TagString "Int8Array") (JsonText "{}").

(** An object tagged [constructor], as made by
    [{ [Symbol.toStringTag]: 'constructor' }]. *)
Definition constructor_tag_object : Value :=
  VObject 1 COrdinary (TagString "constructor") (JsonText "{}").

(** The values of [knownTypes] in the tests of the source. *)
Definition knownTypes : list Value :=
  [ VBoolean true;
    VNumber (S754_finite false 1 0);
    VString "";
    VArray 1 TagAbsent [];
    VObject 2 COrdinary TagAbsent (JsonText "{}");
    VObject 3 CFunction TagAbsent JsonUndefined;
    VUndefined;
    VNull;
    VNumber NaN;
    VNumber Infinity;
    VObject 4 CDate TagAbsent (JsonText (QuoteJSONString "1970-01-01T00:00:00.000Z"));
    VObject 5 CRegExp TagAbsent (JsonText "{}");
    VObject 6 COrdinary (TagString "Set") (JsonText "{}");
    VObject 7 CFunction (TagString "AsyncFunction") JsonUndefined;
    VObject 8 COrdinary (TagString "Promise") (JsonText "{}");
    VObject 9 CFunction (TagString "GeneratorFunction") JsonUndefined;
    VObject 10 CError TagAbsent (JsonText "{}");
    VObject 11 COrdinary (TagString "WeakMap") (JsonText "{}") ].

(** The harness call [test(name, actual, expected)] prints [OK] when
    [areEqual(actual, expected)] is true; the arrays of strings it compares
    are lifted to values here. *)
Definition strings (ref : nat) (l : list string) : Value :=
  VArray ref TagAbsent (map VString l).

Definition number (n : positive) : Value := VNumber (S754_finite false n 0).

Definition plain_object (ref : nat) : Value :=
  VObject ref COrdinary TagAbsent (JsonText "{}").

Definition expected_types : list string :=
  [ "boolean"; "number"; "string"; "object"; "object"; "function";
    "undefined"; "object"; "number"; "number"; "object"; "object"; "object";
    "function"; "object"; "function"; "object"; "object" ].

Definition expected_real_types : list string :=
  [ "boolean"; "number"; "string"; "array"; "object"; "function";
    "undefined"; "null"; "NaN"; "Infinity"; "date"; "regexp"; "set";
    "asyncfunction"; "promise"; "generatorfunction"; "error"; "weakmap" ].

(** ** The console and the harness *)

(** The console, as far as the harness drives it: the depth of the open
    groups and the lines printed so far, each with the method that printed
    it, its indentation and the value printed. *)
Inductive Level : Type :=
| LevelLog
| LevelError
| LevelDebug
| LevelGroup.

Record Line : Type := {
  level : Level;
  indent : nat;
  printed : Value
}.

Record Console : Type := {
  depth : nat;
  output : list Line
}.

Definition console_print (l : Level) (v : Value) (c : Console) : Console :=
  {| depth := depth c;
     output := (output c ++ [ {| level := l; indent := depth c; printed := v |} ])%list |}.

Definition console_log : Value -> Console -> Console := console_print LevelLog.
Definition console_error : Value -> Console -> Console := console_print LevelError.
Definition console_debug : Value -> Console -> Console := console_print LevelDebug.

(** [console.group(label)] prints the label and opens a group. *)
Definition console_group (label : Value) (c : Console) : Console :=
  let c' := console_print LevelGroup label c in
  {| depth := S (depth c'); output := output c' |}.

(** [console.groupEnd()] closes the innermost group, if there is one. *)
Definition console_groupEnd (c : Console) : Console :=
  {| depth := Nat.pred (depth c); output := output c |}.

Definition newline : string := String (ascii_of_nat 10) EmptyString.

(** [testBlock]. *)
Definition testBlock (name : string) (c : Console) : Console :=
  let c := console_groupEnd c in
  console_group (VString ("# " ++ name ++ newline)) c.

(** [test]. *)
Definition test (whatWeTest : string) (actualResult expectedResult : Value)
    (c : Console) : Outcome Console :=
  equal <- areEqual actualResult expectedResult ;;
  if equal : bool then
    Returns (console_log (VString ("[OK] " ++ whatWeTest ++ newline)) c)
  else
    let c := console_error (VString ("[FAIL] " ++ whatWeTest)) c in
    let c := console_debug (VString "Expected:") c in
    let c := console_debug expectedResult c in
    let c := console_debug (VString "Actual:") c in
    let c := console_debug actualResult c in
    Returns (console_log (VString "") c).

(** A run of the harness: a sequence of calls of [testBlock] and [test]
    on one console. *)
Inductive Call : Type :=
| CallTestBlock (name : string)
| CallTest (whatWeTest : string) (actualResult expectedResult : Value).

Definition call (k : Call) (c : Console) : Outcome Console :=
  match k with
  | CallTestBlock name => Returns (testBlock name c)
  | CallTest name actual expected => test name actual expected c
  end.

Fixpoint run (calls : list Call) (c : Console) : Outcome Console :=
  match calls with
  | [] => Returns c
  | k :: rest => c' <- call k c ;; run rest c'
  end.

(** The results of the functions under test, as the values [test]
    receives.  A count is the binary64 of that integer. *)
Definition Number_of_nat (n : nat) : spec_float :=
  match n with
  | O => S754_zero false
  | S _ =>
      let '(M, E) := canonical (Pos.of_nat n) 0 in
      S754_finite false (Z.to_pos M) E
  end.

Definition Value_of_PropValue (v : PropValue) : Value :=
  match v with
  | PNumber n => VNumber (Number_of_nat n)
  | PString s => VString s
  end.

Fixpoint entry_values (ref : nat) (entries : list (string * PropValue)) : list Value :=
  match entries with
  | [] => []
  | (k, v) :: rest =>
      VArray ref TagAbsent [VString k; Value_of_PropValue v] :: entry_values (S ref) rest
  end.

Definition Value_of_entries (ref : nat) (entries : list (string * PropValue)) : Value :=
  VArray ref TagAbsent (entry_values (S ref) entries).

(** The script below the functions (the section [Tests] of the source),
    statement by statement.  Every object literal gets an identity of its
    own. *)
Definition script : Outcome Console :=
  let c := {| depth := 0; output := [] |} in
  let c := testBlock "getType" c in
  c <- test "Boolean" (VString (getType (VBoolean true))) (VString "boolean") c ;;
  c <- test "Number" (VString (getType (VNumber (Number_of_nat 123)))) (VString "number") c ;;
  c <- test "String" (VString (getType (VString "whoo"))) (VString "string") c ;;
  c <- test "Array" (VString (getType (VArray 101 TagAbsent []))) (VString "object") c ;;
  c <- test "Object" (VString (getType (plain_object 102))) (VString "object") c ;;
  c <- test "Function"
         (VString (getType (VObject 103 CFunction TagAbsent JsonUndefined)))
         (VString "function") c ;;
  c <- test "Undefined" (VString (getType VUndefined)) (VString "undefined") c ;;
  c <- test "Null" (VString (getType VNull)) (VString "object") c ;;
  let c := testBlock "allItemsHaveTheSameType" c in
  c <- test "All values are numbers"
         (VBoolean (allItemsHaveTheSameType
            [VNumber (Number_of_nat 11); VNumber (Number_of_nat 12);
             VNumber (Number_of_nat 13)]))
         (VBoolean true) c ;;
  c <- test "All values are strings"
         (VBoolean (allItemsHaveTheSameType [VString "11"; VString "12"; VString "13"]))
         (VBoolean true) c ;;
  c <- test "All values are strings but wait"
         (VBoolean (allItemsHaveTheSameType
            [VString "11";
             VObject 104 CString TagAbsent (JsonText (QuoteJSONString "12"));
             VString "13"]))
         (VBoolean false) c ;;
  c <- test "Values like a number"
         (VBoolean (allItemsHaveTheSameType
            [VNumber (Number_of_nat 123); VNumber NaN; VNumber Infinity]))
         (VBoolean true) c ;;
  c <- test "Values like an object"
         (VBoolean (allItemsHaveTheSameType [plain_object 105]))
         (VBoolean true) c ;;
  let c := testBlock "getTypesOfItems VS getRealTypesOfItems" c in
  c <- test "Check basic types"
         (strings 106 (getTypesOfItems knownTypes)) (strings 107 expected_types) c ;;
  real <- getRealTypesOfItems knownTypes ;;
  c <- test "Check real types" (strings 108 real) (strings 109 expected_real_types) c ;;
  let c := testBlock "everyItemHasAUniqueRealType" c in
  unique <- everyItemHasAUniqueRealType
              [VBoolean true; VNumber (Number_of_nat 123); VString "123"] ;;
  c <- test "All value types in the array are unique" (VBoolean unique) (VBoolean true) c ;;
  unique <- everyItemHasAUniqueRealType
              [VBoolean true; VNumber (Number_of_nat 123); VBoolean false] ;;
  c <- test "Two values have the same type" (VBoolean unique) (VBoolean false) c ;;
  unique <- everyItemHasAUniqueRealType knownTypes ;;
  c <- test "There are no repeated types in knownTypes" (VBoolean unique) (VBoolean true) c ;;
  let c := testBlock "countRealTypes" c in
  counted <- countRealTypes
               [VBoolean true; VNull; VBoolean true; VBoolean false; plain_object 110] ;;
  c <- test "Count unique types of array items" (Value_of_entries 120 counted)
         (Value_of_entries 130
            [("boolean", PNumber 3); ("null", PNumber 1); ("object", PNumber 1)]) c ;;
  counted <- countRealTypes
               [plain_object 111; VNull; VBoolean true; VBoolean true; VBoolean false] ;;
  c <- test "Counted unique types are sorted" (Value_of_entries 140 counted)
         (Value_of_entries 150
            [("boolean", PNumber 3); ("null", PNumber 1); ("object", PNumber 1)]) c ;;
  counted <- countRealTypes
               [VArray 112 TagAbsent []; VNumber (Number_of_nat 1); VBoolean true;
                VBoolean false; VBoolean true; VNumber (Number_of_nat 2)] ;;
  c <- test "Counted unique types are sorted" (Value_of_entries 160 counted)
         (Value_of_entries 170
            [("array", PNumber 1); ("boolean", PNumber 3); ("number", PNumber 2)]) c ;;
  equal <- areEqual (VArray 113 TagAbsent []) (VArray 114 TagAbsent []) ;;
  test "Are not equal [] and []" (VBoolean equal) (VBoolean false) c.

(** ** Further predicates used in the statements *)

Definition is_primitive (v : Value) : bool :=
  match v with
  | VArray _ _ _ | VObject _ _ _ _ => false
  | _ => true
  end.


Fixpoint ones (n : nat) : string :=
  match n with
  | O => EmptyString
  | S n' => String "1"%char (ones n')
  end.

(** What [countRealTypes] stores for a tag met [n] times. *)
Definition entry_for (k : string) (n : nat) : PropValue :=
  if (k =? "constructor")%string
  then PString (Function_prototype_toString "Object" ++ ones n)
  else PNumber n.

Definition is_ok_line (l : Line) : bool :=
  match level l, printed l with
  | LevelLog, VString s => String.prefix "[OK] " s
  | _, _ => false
  end.

Definition is_error_line (l : Line) : bool :=
  match level l with
  | LevelError => true
  | _ => false
  end.

(** The tests of a run whose comparison returns [true], and those whose
    comparison returns [false]. *)
Definition passes (k : Call) : bool :=
  match k with
  | CallTest _ actual expected =>
      match areEqual actual expected with
      | Returns true => true
      | _ => false
      end
  | CallTestBlock _ => false
  end.

Definition fails (k : Call) : bool :=
  match k with
  | CallTest _ actual expected =>
      match areEqual actual expected with
      | Returns false => true
      | _ => false
      end
  | CallTestBlock _ => false
  end.

Definition is_block (k : Call) : bool :=
  match k with
  | CallTestBlock _ => true
  | CallTest _ _ _ => false
  end.

(** The values [JSON.stringify] writes as [null] inside an array. *)
Definition prints_null (v : Value) : bool :=
  match v with
  | VUndefined | VNull | VSymbol _ => true
  | VNumber x => negb (is_finite x)
  | VObject _ _ _ JsonUndefined => true
  | _ => false
  end.

(** ** Results *)

Ltac each_char c := destruct c as [[] [] [] [] [] [] [] []].

(** *** Calls that may throw *)

Lemma Array_map_Forall2 {A B : Type} (f : A -> Outcome B) (l : list A) (ts : list B) :
  Array_map f l = Returns ts <-> Forall2 (fun v t => f v = Returns t) l ts.
Proof.
  revert ts; induction l as [|v l IH]; intros ts; simpl.
  - split; intros H.
    + injection H as <-. constructor.
    + inversion H. reflexivity.
  - split; intros H.
    + destruct (f v) as [t|e] eqn:Hv; simpl in H; [|discriminate].
      destruct (Array_map f l) as [ts'|e] eqn:Hl; simpl in H; [|discriminate].
      injection H as <-. constructor; [assumption|]. now apply IH.
    + inversion H as [|v' t l' ts' Hv Hrest]; subst.
      rewrite Hv; simpl. apply IH in Hrest. rewrite Hrest. reflexivity.
Qed.



Lemma Array_map_In {A B : Type} (f : A -> Outcome B) (l : list A) (ts : list B) :
  Array_map f l = Returns ts ->
  forall t, In t ts -> exists v, In v l /\ f v = Returns t.
Proof.
  intros H. apply Array_map_Forall2 in H.
  induction H as [|v t l ts Hv _ IH]; intros u Hu; simpl in Hu.
  - contradiction.
  - destruct Hu as [<-|Hu].
    + exists v. split; [now left|assumption].
    + destruct (IH u Hu) as [w [Hw Hf]]. exists w. split; [now right|assumption].
Qed.

(** *** Characters and the pattern *)

Lemma lower_char_letter (c : ascii) :
  is_letter c = true -> is_lower (lower_char c) = true.
Proof. each_char c; vm_compute; congruence. Qed.

Lemma is_lower_not_upper (c : ascii) :
  is_lower c = true -> is_upper c = false.
Proof. each_char c; vm_compute; congruence. Qed.

Lemma is_letter_not_digit (c : ascii) :
  is_letter c = true -> is_digit c = false.
Proof. each_char c; vm_compute; congruence. Qed.

Lemma letters_prefix_letters (s : string) :
  String_forallb is_letter (letters_prefix s) = true.
Proof.
  induction s as [|c s IH]; simpl; [reflexivity|].
  destruct (is_letter c) eqn:Hc; simpl; [|reflexivity].
  now rewrite Hc.
Qed.

Lemma letters_prefix_all (s : string) :
  String_forallb is_letter s = true -> letters_prefix s = s.
Proof.
  induction s as [|c s IH]; simpl; [reflexivity|].
  intros H. apply andb_true_iff in H as [Hc Hs].
  rewrite Hc. f_equal. now apply IH.
Qed.

Lemma letters_prefix_bracket (s : string) :
  letters_prefix (s ++ "]") = letters_prefix s.
Proof.
  induction s as [|c s IH]; simpl; [reflexivity|].
  destruct (is_letter c); [now rewrite IH|reflexivity].
Qed.

Lemma String_match_Some (s g : string) :
  String_match s = Some g ->
  g <> EmptyString /\ String_forallb is_letter g = true.
Proof.
  induction s as [|c s IH]; simpl; [discriminate|].
  destruct (is_whitespace c); [|exact IH].
  destruct (letters_prefix s) as [|d w] eqn:Hw; [exact IH|].
  intros H. injection H as <-. split; [discriminate|].
  rewrite <- Hw. apply letters_prefix_letters.
Qed.

(** What the pattern finds in [[object tag]]: the letters at the head of
    the tag, or else the first word further inside the tag. *)
Lemma String_match_object (tag : string) :
  String_match ("[object " ++ tag ++ "]") =
  match letters_prefix tag with
  | EmptyString => String_match (tag ++ "]")
  | group => Some group
  end.
Proof.
  change (String_match ("[object " ++ tag ++ "]"))
    with (match letters_prefix (tag ++ "]") with
          | EmptyString => String_match (tag ++ "]")
          | group => Some group
          end).
  now rewrite letters_prefix_bracket.
Qed.

Lemma String_match_letters_tag (tag : string) :
  tag <> EmptyString ->
  String_forallb is_letter tag = true ->
  String_match ("[object " ++ tag ++ "]") = Some tag.
Proof.
  intros Hne Hall. rewrite String_match_object, letters_prefix_all by assumption.
  destruct tag; [contradiction|reflexivity].
Qed.

Lemma String_toLowerCase_lower (g : string) :
  String_forallb is_letter g = true ->
  String_forallb is_lower (String_toLowerCase g) = true.
Proof.
  induction g as [|c g IH]; simpl; [reflexivity|].
  intros H. apply andb_true_iff in H as [Hc Hg].
  now rewrite lower_char_letter, IH.
Qed.

Lemma String_toLowerCase_nonempty (g : string) :
  g <> EmptyString -> String_toLowerCase g <> EmptyString.
Proof. destruct g; [contradiction|discriminate]. Qed.

Lemma lower_no_upper (t : string) :
  String_forallb is_lower t = true -> String_existsb is_upper t = false.
Proof.
  induction t as [|c t IH]; simpl; [reflexivity|].
  intros H. apply andb_true_iff in H as [Hc Ht].
  now rewrite is_lower_not_upper, IH.
Qed.

(** *** [getRealType] *)

(** The function and its evaluation relation agree. *)
Lemma getRealType_classifies (v : Value) : classifies v (getRealType v).
Proof.
  unfold getRealType.
  destruct (Number_isNaN v) eqn:Hnan; [now constructor|].
  destruct (strict_equal v (VNumber Infinity)) eqn:Hinf; [now constructor|].
  destruct (Object_prototype_toString v) as [str|e] eqn:Hstr; simpl.
  - destruct (String_match str) as [word|] eqn:Hm; simpl.
    + now apply classifies_word with str.
    + now apply classifies_no_match with str.
  - now apply classifies_probe_throws.
Qed.



(** Past the two special cases the result is the lower-cased word the
    pattern finds in the probe. *)
Lemma getRealType_fallback (v : Value) :
  Number_isNaN v = false ->
  strict_equal v (VNumber Infinity) = false ->
  getRealType v =
    (tag <- internal_tag v ;;
     word <- group1 (String_match ("[object " ++ tag ++ "]")) ;;
     Returns (String_toLowerCase word)).
Proof.
  intros Hnan Hinf. unfold getRealType, Object_prototype_toString.
  rewrite Hnan, Hinf. now destruct (internal_tag v).
Qed.

(** Every tag that comes back is [NaN], [Infinity], or a non-empty word of
    lower-case letters. *)
Lemma getRealType_shape (v : Value) (t : string) :
  getRealType v = Returns t ->
  t = "NaN" \/ t = "Infinity" \/
  (t <> EmptyString /\ String_forallb is_lower t = true).
Proof.
  intros H. pose proof (getRealType_classifies v) as Hc. rewrite H in Hc.
  inversion Hc as [| | | |str word _ _ _ Hm]; subst; auto.
  apply String_match_Some in Hm as [Hne Hall].
  right; right. split.
  - now apply String_toLowerCase_nonempty.
  - now apply String_toLowerCase_lower.
Qed.

(** On values that show their built-in tag the function always returns. *)
Lemma getRealType_total_builtin (v : Value) :
  shows_builtin_tag v = true -> exists t, getRealType v = Returns t.
Proof.
  destruct v as [| |b|x|s|k|n|r tag items|r cls tag json]; simpl; intros H;
    try (eexists; reflexivity).
  - destruct x as [z|z| |z m e]; try destruct z; eexists; reflexivity.
  - destruct tag; try discriminate. eexists; reflexivity.
  - destruct tag; try discriminate. destruct cls; eexists; reflexivity.
Qed.

(** The function returns exactly when the probe does and the pattern finds
    a word in it. *)
Lemma getRealType_returns_iff (v : Value) :
  (exists t, getRealType v = Returns t) <->
  (Number_isNaN v = true \/ strict_equal v (VNumber Infinity) = true \/
   exists tag word, internal_tag v = Returns tag /\
                    String_match ("[object " ++ tag ++ "]") = Some word).
Proof.
  destruct (Number_isNaN v) eqn:Hnan.
  - split; [auto|]. intros _. exists "NaN". unfold getRealType. now rewrite Hnan.
  - destruct (strict_equal v (VNumber Infinity)) eqn:Hinf.
    + split; [auto|]. intros _. exists "Infinity". unfold getRealType.
      now rewrite Hnan, Hinf.
    + rewrite (getRealType_fallback v Hnan Hinf). split.
      * intros [t Ht]. right; right.
        destruct (internal_tag v) as [tag|e]; cbn [bind] in Ht; [|discriminate].
        destruct (String_match ("[object " ++ tag ++ "]")) as [word|] eqn:Hm;
          cbn [bind group1] in Ht; [|discriminate].
        now exists tag, word.
      * intros [H|[H|[tag [word [Htag Hm]]]]]; try discriminate.
        rewrite Htag; cbn [bind]. rewrite Hm; cbn [bind group1]. eexists; reflexivity.
Qed.

(** The function returns on every value whose tag opens with a letter. *)
Lemma getRealType_total_letter_head (v : Value) (c : ascii) (rest : string) :
  internal_tag v = Returns (String c rest) -> is_letter c = true ->
  exists t, getRealType v = Returns t.
Proof.
  intros Htag Hc. apply getRealType_returns_iff. right; right.
  exists (String c rest), (String c (letters_prefix rest)). split; [assumption|].
  rewrite String_match_object. cbn [letters_prefix]. now rewrite Hc.
Qed.

(** C1: classify maps the special values as specified: [NaN] to ["NaN"],
    positive infinity to ["Infinity"], negative infinity to ["number"] and
    [null] to ["null"]. *)
Theorem getRealType_special_values :
  getRealType (VNumber NaN) = Returns "NaN" /\
  getRealType (VNumber Infinity) = Returns "Infinity" /\
  getRealType (VNumber NegInfinity) = Returns "number" /\
  getRealType VNull = Returns "null".
Proof. repeat split; reflexivity. Qed.

(** C2: classify is claimed never to throw.  On an object whose
    [Symbol.toStringTag] is the empty string the probe returns
    ["[object ]"], the pattern finds no word in it, [match] returns [null]
    and indexing it throws. *)
Theorem getRealType_throws_on_empty_tag :
  Object_prototype_toString empty_tag_object = Returns "[object ]" /\
  String_match "[object ]" = None /\
  getRealType empty_tag_object = Throws TypeError.
Proof. repeat split; reflexivity. Qed.

(** C3, as stated, fails: a typed array is neither [NaN] nor positive
    infinity, its internal tag is ["Int8Array"], and classify returns
    ["int"], which is not the lower-cased tag ["int8array"]. *)
Lemma getRealType_int8array_not_lowercased_tag :
  Number_isNaN int8array = false /\
  strict_equal int8array (VNumber Infinity) = false /\
  internal_tag int8array = Returns "Int8Array" /\
  getRealType int8array = Returns "int" /\
  getRealType int8array <> Returns (String_toLowerCase "Int8Array").
Proof. repeat split; try reflexivity. discriminate. Qed.

(** C3 (amended): classify is a priority chain: [NaN] first, then positive
    infinity, then the fallback; for every value that is neither and whose
    internal tag is a non-empty word of ASCII letters, classify returns
    that tag lower-cased; ["NaN"] and ["Infinity"] are the only returned
    tags with an upper-case letter, and no returned tag is empty. *)
Theorem getRealType_priority_chain (v : Value) :
  (Number_isNaN v = true -> getRealType v = Returns "NaN") /\
  (Number_isNaN v = false -> strict_equal v (VNumber Infinity) = true ->
   getRealType v = Returns "Infinity") /\
  (Number_isNaN v = false -> strict_equal v (VNumber Infinity) = false ->
   forall tag, internal_tag v = Returns tag ->
               tag <> EmptyString -> String_forallb is_letter tag = true ->
               getRealType v = Returns (String_toLowerCase tag)) /\
  (forall t, getRealType v = Returns t ->
             t <> EmptyString /\
             (String_existsb is_upper t = true -> t = "NaN" \/ t = "Infinity")).
Proof.
  repeat split.
  - intros H. unfold getRealType. now rewrite H.
  - intros H1 H2. unfold getRealType. now rewrite H1, H2.
  - intros Hnan Hinf tag Htag Hne Hall.
    rewrite (getRealType_fallback v Hnan Hinf), Htag; cbn [bind].
    now rewrite String_match_letters_tag.
  - apply getRealType_shape in H as [->|[->|[Hne _]]]; [discriminate..|assumption].
  - intros Hup. apply getRealType_shape in H as [->|[->|[_ Hlow]]]; auto.
    apply lower_no_upper in Hlow. congruence.
Qed.

(** The chain at [new Date()]: the tag ["Date"] comes back as ["date"]. *)
Lemma getRealType_priority_chain_witness :
  getRealType (VObject 4 CDate TagAbsent (JsonText "{}")) = Returns "date" /\
  ("date" <> EmptyString /\
   (String_existsb is_upper "date" = true -> "date" = "NaN" \/ "date" = "Infinity")).
Proof.
  pose proof (getRealType_priority_chain
                (VObject 4 CDate TagAbsent (JsonText "{}"))) as [_ [_ [H3 H4]]].
  split.
  - apply (H3 eq_refl eq_refl "Date"); [reflexivity|discriminate|reflexivity].
  - apply H4. reflexivity.
Defined.



(** *** [getRealTypesOfItems] *)



(** *** [Set] *)

Lemma Set_has_In (s : JsSet) (x : string) : Set_has s x = true <-> In x s.
Proof.
  unfold Set_has. rewrite existsb_exists. split.
  - intros [y [Hy Heq]]. apply String.eqb_eq in Heq. now subst.
  - intros H. exists x. split; [assumption|apply String.eqb_refl].
Qed.

Lemma Set_add_In (s : JsSet) (x y : string) :
  In y (Set_add s x) <-> In y s \/ y = x.
Proof.
  unfold Set_add. destruct (Set_has s x) eqn:Hx.
  - apply Set_has_In in Hx. split; [auto|]. intros [H| ->]; assumption.
  - rewrite in_app_iff; simpl. intuition.
Qed.

Lemma Set_add_NoDup (s : JsSet) (x : string) : NoDup s -> NoDup (Set_add s x).
Proof.
  intros Hs. unfold Set_add. destruct (Set_has s x) eqn:Hx; [assumption|].
  apply NoDup_app; [assumption|repeat constructor; intros []|].
  intros y Hy [<-|[]].
  apply Set_has_In in Hy. congruence.
Qed.

Lemma Set_fold_spec (xs : list string) (acc : JsSet) :
  NoDup acc ->
  NoDup (fold_left Set_add xs acc) /\
  forall y, In y (fold_left Set_add xs acc) <-> In y acc \/ In y xs.
Proof.
  revert acc; induction xs as [|x xs IH]; intros acc Hacc; simpl.
  - split; [assumption|]. intuition.
  - destruct (IH (Set_add acc x) (Set_add_NoDup acc x Hacc)) as [Hnd Hin].
    split; [assumption|]. intros y. rewrite Hin, Set_add_In. intuition.
Qed.

Lemma Set_new_NoDup (xs : list string) : NoDup (Set_new xs).
Proof. apply (Set_fold_spec xs []). constructor. Qed.

Lemma Set_new_In (xs : list string) (y : string) : In y (Set_new xs) <-> In y xs.
Proof.
  unfold Set_new. rewrite (proj2 (Set_fold_spec xs [] (NoDup_nil _))). simpl. intuition.
Qed.

(** The size of the set is the number of distinct members of the list. *)
Lemma Set_size_distinct (xs : list string) :
  Set_size (Set_new xs) = List.length (nodup string_dec xs).
Proof.
  unfold Set_size. apply Permutation_length, NoDup_Permutation.
  - apply Set_new_NoDup.
  - apply NoDup_nodup.
  - intros y. now rewrite Set_new_In, nodup_In.
Qed.


(** *** [allItemsHaveTheSameType] *)


(** *** [everyItemHasAUniqueRealType] *)



(** *** The order of strings *)

Lemma Ascii_compare_refl (c : ascii) : Ascii.compare c c = Eq.
Proof. unfold Ascii.compare. apply N.compare_refl. Qed.

Lemma Ascii_compare_lt_trans (a b c : ascii) :
  Ascii.compare a b = Lt -> Ascii.compare b c = Lt -> Ascii.compare a c = Lt.
Proof.
  unfold Ascii.compare. rewrite !N.compare_lt_iff. apply N.lt_trans.
Qed.

Lemma String_compare_refl (s : string) : String.compare s s = Eq.
Proof. induction s as [|c s IH]; simpl; [reflexivity|]. now rewrite Ascii_compare_refl. Qed.

Lemma String_compare_lt_trans (a b c : string) :
  String.compare a b = Lt -> String.compare b c = Lt -> String.compare a c = Lt.
Proof.
  revert b c; induction a as [|x a IH]; intros [|y b] [|z c]; simpl;
    try discriminate; try reflexivity.
  destruct (Ascii.compare x y) eqn:Hxy; try discriminate;
    destruct (Ascii.compare y z) eqn:Hyz; try discriminate; intros Hab Hbc.
  - apply Ascii.compare_eq_iff in Hxy, Hyz. subst.
    rewrite Ascii_compare_refl. now apply IH with b.
  - apply Ascii.compare_eq_iff in Hxy. subst. now rewrite Hyz.
  - apply Ascii.compare_eq_iff in Hyz. subst. now rewrite Hxy.
  - now rewrite (Ascii_compare_lt_trans x y z).
Qed.

Lemma String_lt_irrefl (a : string) : ~ String_lt a a.
Proof. unfold String_lt, String.ltb. now rewrite String_compare_refl. Qed.

Lemma String_lt_trans (a b c : string) : String_lt a b -> String_lt b c -> String_lt a c.
Proof.
  unfold String_lt, String.ltb. intros Hab Hbc.
  destruct (String.compare a b) eqn:H1; try discriminate.
  destruct (String.compare b c) eqn:H2; try discriminate.
  now rewrite (String_compare_lt_trans a b c).
Qed.

Lemma String_le_lt_or_eq (a b : string) : String_le a b <-> String_lt a b \/ a = b.
Proof.
  unfold String_le, String_lt, String.leb, String.ltb. split.
  - destruct (String.compare a b) eqn:H; try discriminate; auto.
    right. now apply String.compare_eq_iff.
  - intros [H| ->]; [|now rewrite String_compare_refl].
    now destruct (String.compare a b).
Qed.

Lemma String_le_refl (a : string) : String_le a a.
Proof. apply String_le_lt_or_eq. now right. Qed.

Lemma String_le_trans (a b c : string) : String_le a b -> String_le b c -> String_le a c.
Proof.
  rewrite !String_le_lt_or_eq. intros [Hab| ->] [Hbc| ->]; auto.
  left. now apply String_lt_trans with b.
Qed.

Lemma String_le_antisym (a b : string) : String_le a b -> String_le b a -> a = b.
Proof. apply String.leb_antisym. Qed.

Lemma String_le_total (a b : string) : String_le a b \/ String_le b a.
Proof. apply String.leb_total. Qed.

(** *** [Array.prototype.sort] *)

Lemma sort_insert_Permutation (x : string) (l : list string) :
  Permutation (x :: l) (sort_insert x l).
Proof.
  induction l as [|y l IH]; simpl; [reflexivity|].
  destruct (x <=? y)%string; [reflexivity|].
  rewrite perm_swap. now constructor.
Qed.

Lemma sort_insert_sorted (x : string) (l : list string) :
  StronglySorted String_le l -> StronglySorted String_le (sort_insert x l).
Proof.
  induction l as [|y l IH]; intros Hl; simpl.
  - repeat constructor.
  - inversion Hl as [|? ? Hl' Hy]; subst.
    destruct (x <=? y)%string eqn:Hxy.
    + constructor; [assumption|]. constructor; [exact Hxy|].
      rewrite Forall_forall in *. intros z Hz.
      apply String_le_trans with y; [exact Hxy|now apply Hy].
    + constructor; [now apply IH|].
      assert (Hyx : String_le y x).
      { destruct (String_le_total x y) as [H|H]; [unfold String_le in H; congruence|exact H]. }
      rewrite Forall_forall in *. intros z Hz.
      apply Permutation_in with (l' := x :: l) in Hz;
        [|symmetry; apply sort_insert_Permutation].
      destruct Hz as [<-|Hz]; [assumption|now apply Hy].
Qed.

Lemma Array_sort_Permutation (l : list string) : Permutation l (Array_sort l).
Proof.
  induction l as [|x l IH]; simpl; [constructor|].
  rewrite <- sort_insert_Permutation. now constructor.
Qed.

Lemma Array_sort_sorted (l : list string) : StronglySorted String_le (Array_sort l).
Proof.
  induction l as [|x l IH]; simpl; [constructor|]. now apply sort_insert_sorted.
Qed.

Lemma sorted_Permutation_unique (l1 l2 : list string) :
  StronglySorted String_le l1 -> StronglySorted String_le l2 ->
  Permutation l1 l2 -> l1 = l2.
Proof.
  revert l2; induction l1 as [|x l1 IH]; intros l2 H1 H2 Hp.
  - apply Permutation_nil in Hp. now subst.
  - destruct l2 as [|y l2]; [apply Permutation_sym, Permutation_nil in Hp; discriminate|].
    inversion H1 as [|? ? H1' Hx]; inversion H2 as [|? ? H2' Hy]; subst.
    rewrite Forall_forall in Hx, Hy.
    assert (Hxy : x = y).
    { assert (Hin1 : In y (x :: l1)) by (apply Permutation_in with (y :: l2); [now symmetry|now left]).
      assert (Hin2 : In x (y :: l2)) by (apply Permutation_in with (x :: l1); [assumption|now left]).
      destruct Hin1 as [|Hin1]; [assumption|]. destruct Hin2 as [|Hin2]; [now symmetry|].
      apply String_le_antisym; [now apply Hx|now apply Hy]. }
    subst y. f_equal. apply IH; try assumption. now apply Permutation_cons_inv with x.
Qed.

(** The embedding of [sort] does not depend on the algorithm: any
    ascending rearrangement of the array is the one computed here. *)
Lemma Array_sort_unique (l l' : list string) :
  Permutation l l' -> StronglySorted String_le l' -> l' = Array_sort l.
Proof.
  intros Hp Hs. apply sorted_Permutation_unique; [assumption|apply Array_sort_sorted|].
  rewrite <- Hp. apply Array_sort_Permutation.
Qed.

(** *** The dictionary [result] *)

Lemma getRealType_tag_like (v : Value) (t : string) :
  getRealType v = Returns t -> tag_like t = true.
Proof.
  intros H. apply getRealType_shape in H as [->|[->|[Hne Hlow]]]; try reflexivity.
  unfold tag_like. rewrite Hlow.
  apply String.eqb_neq in Hne. rewrite Hne. apply orb_true_r.
Qed.

Lemma is_lower_not_index_head (c : ascii) :
  is_lower c = true -> (code c =? 48)%nat = false /\ is_digit c = false.
Proof. each_char c; vm_compute; intuition congruence. Qed.

Lemma tag_like_not_index (t : string) : tag_like t = true -> array_index t = None.
Proof.
  unfold tag_like. intros H.
  apply orb_true_iff in H as [H|H]; [apply orb_true_iff in H as [H|H]|].
  - apply String.eqb_eq in H. now subst.
  - apply String.eqb_eq in H. now subst.
  - apply andb_true_iff in H as [_ H]. destruct t as [|c t]; [reflexivity|].
    simpl in H. apply andb_true_iff in H as [Hc _].
    apply is_lower_not_index_head in Hc as [H48 Hd].
    unfold array_index. rewrite H48. simpl. now rewrite Hd.
Qed.

Lemma tag_like_not_proto (t : string) : tag_like t = true -> t <> "__proto__".
Proof. intros H ->. discriminate. Qed.

(** The only name a tag can share with [Object.prototype] is
    [constructor]. *)
Lemma tag_like_prototype (t : string) :
  tag_like t = true -> t <> "constructor" -> Object_prototype_get t = None.
Proof.
  intros Ht Hc. unfold Object_prototype_get.
  destruct (t =? "__proto__")%string eqn:H1.
  { apply String.eqb_eq in H1. subst. discriminate. }
  destruct (t =? "constructor")%string eqn:H2.
  { apply String.eqb_eq in H2. contradiction. }
  destruct (existsb (String.eqb t) Object_prototype_functions) eqn:H3; [|reflexivity].
  apply existsb_exists in H3 as [name [Hin Heq]].
  apply String.eqb_eq in Heq. subst name.
  unfold Object_prototype_functions in Hin. simpl in Hin.
  repeat (destruct Hin as [<-|Hin]; [try discriminate; now contradiction Hc|]).
  contradiction.
Qed.


Lemma own_get_None (o : JsObject) (k : string) :
  own_get o k = None <-> ~ In k (keys o).
Proof.
  induction o as [|[k' v] o IH]; simpl; [intuition|].
  destruct (k' =? k)%string eqn:Hk.
  - apply String.eqb_eq in Hk. split; [discriminate|]. intros H. exfalso. auto.
  - apply String.eqb_neq in Hk. rewrite IH. intuition.
Qed.

Lemma own_get_Some_In (o : JsObject) (k : string) (v : PropValue) :
  own_get o k = Some v -> In (k, v) o.
Proof.
  induction o as [|[k' w] o IH]; simpl; [discriminate|].
  destruct (k' =? k)%string eqn:Hk.
  - apply String.eqb_eq in Hk. intros H. injection H as <-. subst. now left.
  - intros H. right. now apply IH.
Qed.

Lemma In_own_get (o : JsObject) (k : string) (v : PropValue) :
  NoDup (keys o) -> In (k, v) o -> own_get o k = Some v.
Proof.
  induction o as [|[k' w] o IH]; simpl; [contradiction|].
  intros Hnd [Heq|Hin].
  - injection Heq as -> ->. now rewrite String.eqb_refl.
  - inversion Hnd as [|? ? Hnotin Hnd']; subst.
    destruct (k' =? k)%string eqn:Hk; [|now apply IH].
    apply String.eqb_eq in Hk. subst. exfalso. apply Hnotin.
    change k with (fst (k, v)). now apply in_map.
Qed.

Lemma own_update_keys (o : JsObject) (k : string) (v : PropValue) :
  keys (own_update o k v) = keys o.
Proof.
  induction o as [|[k' w] o IH]; simpl; [reflexivity|].
  destruct (k' =? k)%string; simpl; [reflexivity|]. now rewrite IH.
Qed.

Lemma own_update_get (o : JsObject) (k k' : string) (v w : PropValue) :
  own_get o k = Some w ->
  own_get (own_update o k v) k' = if string_dec k k' then Some v else own_get o k'.
Proof.
  induction o as [|[j u] o IH]; simpl; [discriminate|].
  destruct (j =? k)%string eqn:Hj; intros H.
  - apply String.eqb_eq in Hj. subst j. simpl.
    destruct (string_dec k k') as [->|Hne].
    + now rewrite String.eqb_refl.
    + apply String.eqb_neq in Hne. now rewrite Hne.
  - simpl. destruct (j =? k')%string eqn:Hj'.
    + apply String.eqb_eq in Hj'. subst j. apply String.eqb_neq in Hj.
      destruct (string_dec k k'); [congruence|reflexivity].
    + now apply IH.
Qed.

Lemma own_get_snoc (o : JsObject) (k k' : string) (v : PropValue) :
  own_get (o ++ [(k, v)])%list k' =
  match own_get o k' with
  | Some w => Some w
  | None => if string_dec k k' then Some v else None
  end.
Proof.
  induction o as [|[j u] o IH]; simpl.
  - destruct (string_dec k k') as [->|Hne].
    + now rewrite String.eqb_refl.
    + apply String.eqb_neq in Hne. now rewrite Hne.
  - destruct (j =? k')%string; [reflexivity|exact IH].
Qed.




(** The two ways the callback of [forEach] goes. *)
Lemma count_step_own (o : JsObject) (t : string) (v : PropValue) :
  own_get o t = Some v ->
  count_step o t = own_update o t (or_zero_plus_one (GotOwn v)).
Proof. intros H. unfold count_step, Object_set, Object_get. now rewrite H. Qed.

Lemma count_step_new (o : JsObject) (t : string) :
  own_get o t = None -> t <> "__proto__" ->
  count_step o t =
  (o ++ [(t, or_zero_plus_one
               match Object_prototype_get t with
               | Some i => GotInherited i
               | None => GotUndefined
               end)])%list.
Proof.
  intros H Hp. unfold count_step, Object_set, Object_get. rewrite H.
  apply String.eqb_neq in Hp. now rewrite Hp.
Qed.

Lemma StronglySorted_snoc (l : list string) (x : string) :
  StronglySorted String_lt l -> (forall k, In k l -> String_lt k x) ->
  StronglySorted String_lt (l ++ [x])%list.
Proof.
  induction l as [|y l IH]; intros Hl Hx; simpl.
  - repeat constructor.
  - inversion Hl as [|? ? Hl' Hy]; subst. constructor.
    + apply IH; [assumption|]. intros k Hk. apply Hx. now right.
    + apply Forall_app. split; [assumption|]. constructor; [|constructor].
      apply Hx. now left.
Qed.

Lemma StronglySorted_lt_NoDup (l : list string) :
  StronglySorted String_lt l -> NoDup l.
Proof.
  induction 1 as [|x l _ IH Hx]; constructor; [|assumption].
  intros Hin. rewrite Forall_forall in Hx.
  now apply (String_lt_irrefl x), Hx.
Qed.

(** Folding the callback over an ascending list creates the keys in
    ascending order, each once. *)
Lemma fold_count_step_keys (ts : list string) (acc : JsObject) :
  StronglySorted String_lt (keys acc) ->
  (forall k t, In k (keys acc) -> In t ts -> String_le k t) ->
  StronglySorted String_le ts ->
  Forall (fun t => t <> "__proto__") ts ->
  StronglySorted String_lt (keys (fold_left count_step ts acc)) /\
  forall k, In k (keys (fold_left count_step ts acc)) <-> In k (keys acc) \/ In k ts.
Proof.
  revert acc; induction ts as [|t ts IH]; intros acc Hacc Hbound Hts Hproto; simpl.
  - split; [assumption|]. intuition.
  - inversion Hts as [|? ? Hts' Ht]; subst.
    inversion Hproto as [|? ? Hp Hproto']; subst.
    rewrite Forall_forall in Ht.
    destruct (own_get acc t) as [v|] eqn:Hget.
    + assert (Hin : In t (keys acc)).
      { apply own_get_Some_In in Hget. change t with (fst (t, v)). now apply in_map. }
      rewrite (count_step_own acc t v Hget).
      destruct (IH (own_update acc t (or_zero_plus_one (GotOwn v)))) as [Hs Hk];
        rewrite ?own_update_keys; try assumption.
      { intros k u Hk Hu. apply Hbound; [assumption|now right]. }
      split; [assumption|]. intros k. rewrite Hk, own_update_keys.
      intuition (subst; auto).
    + assert (Hnotin : ~ In t (keys acc)) by now apply own_get_None.
      rewrite (count_step_new acc t Hget Hp).
      match goal with |- context [fold_left count_step ts ?o] => set (acc' := o) end.
      assert (Hkeys : keys acc' = (keys acc ++ [t])%list).
      { unfold acc', keys. now rewrite map_app. }
      destruct (IH acc') as [Hs Hk]; rewrite ?Hkeys; try assumption.
      { apply StronglySorted_snoc; [assumption|]. intros k Hk.
        destruct (proj1 (String_le_lt_or_eq k t)) as [Hlt|Heq];
          [apply Hbound; [assumption|now left]|assumption|congruence]. }
      { intros k u Hk Hu. apply in_app_iff in Hk as [Hk|[<-|[]]].
        - apply Hbound; [assumption|now right].
        - now apply Ht. }
      split; [assumption|]. intros k. rewrite Hk, Hkeys, in_app_iff. simpl. intuition.
Qed.



Lemma index_entries_no_index (o : JsObject) :
  Forall (fun k => array_index k = None) (keys o) -> index_entries o = [].
Proof.
  induction o as [|[k v] o IH]; simpl; [reflexivity|].
  intros H. inversion H as [|? ? Hk Ho]; subst. rewrite Hk. now apply IH.
Qed.

(** [Object.entries] keeps the creation order when no key is an array
    index. *)
Lemma Object_entries_no_index (o : JsObject) :
  Forall (fun k => array_index k = None) (keys o) -> Object_entries o = o.
Proof.
  intros H. unfold Object_entries. rewrite (index_entries_no_index o H). simpl.
  induction o as [|[k v] o IH]; simpl; [reflexivity|].
  inversion H as [|? ? Hk Ho]; subst.
  unfold is_index_key at 1. simpl. rewrite Hk. simpl. f_equal. now apply IH.
Qed.

(** *** [countRealTypes] *)

Lemma getRealTypesOfItems_tag_like (arr : list Value) (tags : list string) :
  getRealTypesOfItems arr = Returns tags -> Forall (fun t => tag_like t = true) tags.
Proof.
  intros H. apply Forall_forall. intros t Ht.
  destruct (Array_map_In _ _ _ H t Ht) as [v [_ Hv]].
  now apply getRealType_tag_like with v.
Qed.

Lemma Array_sort_Forall (P : string -> Prop) (l : list string) :
  Forall P l -> Forall P (Array_sort l).
Proof.
  rewrite !Forall_forall. intros H t Ht. apply H.
  apply Permutation_in with (Array_sort l); [|assumption].
  symmetry. apply Array_sort_Permutation.
Qed.



Lemma countRealTypes_empty : countRealTypes [] = Returns [].
Proof. reflexivity. Qed.

(** C4: the counts of countByType are claimed to add up to the length of
    the input.  On an input with an element tagged [constructor] the slot
    [result.constructor] starts from the inherited function [Object], [+]
    concatenates, and the entry holds a string: the counts do not add up
    to 2. *)
Theorem countRealTypes_constructor_sum :
  countRealTypes [VBoolean true; constructor_tag_object] =
    Returns [ ("boolean", PNumber 1);
              ("constructor", PString "function Object() { [native code] }1") ] /\
  counts_sum [ ("boolean", PNumber 1);
               ("constructor", PString "function Object() { [native code] }1") ]
    <> Some (List.length [VBoolean true; constructor_tag_object]).
Proof. split; [reflexivity|discriminate]. Qed.

(** C10: every count emitted by countByType is claimed to be at least 1.
    For two elements tagged [constructor] the one entry emitted holds the
    source text of [Object] followed by ["11"], not a number. *)
Theorem countRealTypes_constructor_count :
  countRealTypes [constructor_tag_object; constructor_tag_object] =
    Returns [ ("constructor", PString "function Object() { [native code] }11") ] /\
  count_value (PString "function Object() { [native code] }11") = None.
Proof. split; reflexivity. Qed.

(** *** [JSON.stringify] on arrays of strings *)

Lemma String_append_assoc (a b c : string) : (a ++ b) ++ c = a ++ (b ++ c).
Proof. induction a as [|x a IH]; simpl; [reflexivity|]. now rewrite IH. Qed.

Lemma unquote_QuoteJSONChar (c : ascii) (rest : string) :
  unquote_char (QuoteJSONChar c ++ rest) = Some (c, rest).
Proof. each_char c; reflexivity. Qed.

Lemma unquote_dquote (rest : string) : unquote_char (String dquote rest) = None.
Proof. reflexivity. Qed.

(** The body of a string literal can be read back: two literals followed
    by their closing quotes are equal only for equal strings. *)
Lemma QuoteJSONBody_inj (s1 s2 r1 r2 : string) :
  QuoteJSONBody s1 ++ String dquote r1 = QuoteJSONBody s2 ++ String dquote r2 ->
  s1 = s2 /\ r1 = r2.
Proof.
  revert s2; induction s1 as [|c1 s1 IH]; intros [|c2 s2]; simpl; intros H.
  - injection H as ->. now split.
  - apply (f_equal unquote_char) in H.
    rewrite String_append_assoc, unquote_QuoteJSONChar in H. discriminate.
  - apply (f_equal unquote_char) in H.
    rewrite String_append_assoc, unquote_QuoteJSONChar in H. discriminate.
  - apply (f_equal unquote_char) in H.
    rewrite !String_append_assoc, !unquote_QuoteJSONChar in H.
    injection H as -> H. destruct (IH _ H) as [-> ->]. now split.
Qed.

Lemma QuoteJSONString_append (s r : string) :
  QuoteJSONString s ++ r = String dquote (QuoteJSONBody s ++ String dquote r).
Proof.
  unfold QuoteJSONString. simpl. now rewrite String_append_assoc.
Qed.

Lemma concat_cons_append (sep x : string) (xs : list string) (r : string) :
  String.concat sep (x :: xs) ++ r =
  x ++ match xs with
       | [] => r
       | _ :: _ => sep ++ (String.concat sep xs ++ r)
       end.
Proof.
  destruct xs as [|y xs]; [reflexivity|].
  cbn [String.concat]. now rewrite !String_append_assoc.
Qed.

(** The text of an array of strings determines the strings. *)
Lemma concat_QuoteJSONString_inj (ss ts : list string) :
  String.concat "," (map QuoteJSONString ss) ++ "]" =
  String.concat "," (map QuoteJSONString ts) ++ "]" ->
  ss = ts.
Proof.
  revert ts; induction ss as [|s ss IH]; intros [|t ts]; intros H.
  - reflexivity.
  - cbn [map] in H. rewrite concat_cons_append, QuoteJSONString_append in H.
    discriminate.
  - cbn [map] in H. rewrite concat_cons_append, QuoteJSONString_append in H.
    discriminate.
  - cbn [map] in H. rewrite !concat_cons_append, !QuoteJSONString_append in H.
    injection H as H. apply QuoteJSONBody_inj in H as [-> H]. f_equal.
    destruct ss as [|s' ss], ts as [|t' ts]; cbn [map] in H; try reflexivity.
    + rewrite concat_cons_append, QuoteJSONString_append in H. discriminate.
    + rewrite concat_cons_append, QuoteJSONString_append in H. discriminate.
    + apply IH. cbn [map]. simpl in H. injection H as H. exact H.
Qed.

Lemma SerializeJSONProperty_array (ref : nat) (tag : TagLookup) (items : list Value) :
  SerializeJSONProperty (VArray ref tag items) =
  (parts <- SerializeJSONElements items ;;
   Returns (Some ("[" ++ String.concat "," parts ++ "]"))).
Proof.
  reflexivity.
Qed.

Lemma SerializeJSONElements_strings (ss : list string) :
  SerializeJSONElements (map VString ss) = Returns (map QuoteJSONString ss).
Proof.
  induction ss as [|s ss IH]; [reflexivity|].
  cbn [map SerializeJSONElements SerializeJSONProperty bind]. now rewrite IH.
Qed.

Lemma JSON_stringify_strings (ref : nat) (tag : TagLookup) (ss : list string) :
  JSON_stringify (VArray ref tag (map VString ss)) =
  Returns (Some ("[" ++ String.concat "," (map QuoteJSONString ss) ++ "]")).
Proof.
  unfold JSON_stringify. rewrite SerializeJSONProperty_array, SerializeJSONElements_strings.
  reflexivity.
Qed.

Lemma JSON_stringify_array_text (ref : nat) (tag : TagLookup) (items : list Value)
    (p : option string) :
  JSON_stringify (VArray ref tag items) = Returns p -> exists text, p = Some text.
Proof.
  unfold JSON_stringify. rewrite SerializeJSONProperty_array.
  destruct (SerializeJSONElements items); cbn [bind]; [|discriminate].
  intros H. injection H as <-. eexists; reflexivity.
Qed.

(** *** [areEqual] *)

(** C8, as stated, fails: the arrays [[undefined]] and [[null]] have the
    same non-zero length and are declared equal, their elements differ. *)
Lemma areEqual_undefined_null :
  areEqual (VArray 1 TagAbsent [VUndefined]) (VArray 2 TagAbsent [VNull]) = Returns true /\
  List.length [VUndefined] = List.length [VNull] /\
  strict_equal VUndefined VNull = false /\
  ~ Forall2 (fun x y => strict_equal x y = true) [VUndefined] [VNull].
Proof.
  repeat split; try reflexivity.
  intros H. inversion H as [|? ? ? ? Heq _]. discriminate.
Qed.

(** C8 (amended): the helper declares two sequences equal if and only if
    they have the same length, that length is not zero, and their JSON
    texts are the same; for sequences of strings that is element-wise
    equality in order; two empty sequences are declared unequal. *)
Theorem areEqual_sequences :
  (forall r1 t1 xs r2 t2 ys,
     areEqual (VArray r1 t1 xs) (VArray r2 t2 ys) = Returns true <->
     List.length xs = List.length ys /\ List.length xs <> 0 /\
     exists text, JSON_stringify (VArray r1 t1 xs) = Returns (Some text) /\
                  JSON_stringify (VArray r2 t2 ys) = Returns (Some text)) /\
  (forall r1 t1 ss r2 t2 ts,
     areEqual (VArray r1 t1 (map VString ss)) (VArray r2 t2 (map VString ts)) = Returns true <->
     List.length ss = List.length ts /\ List.length ss <> 0 /\
     forall i, nth_error ss i = nth_error ts i) /\
  (forall r1 t1 r2 t2,
     areEqual (VArray r1 t1 []) (VArray r2 t2 []) = Returns false).
Proof.
  assert (Hgen : forall r1 t1 xs r2 t2 ys,
     areEqual (VArray r1 t1 xs) (VArray r2 t2 ys) = Returns true <->
     List.length xs = List.length ys /\ List.length xs <> 0 /\
     exists text, JSON_stringify (VArray r1 t1 xs) = Returns (Some text) /\
                  JSON_stringify (VArray r2 t2 ys) = Returns (Some text)).
  { intros r1 t1 xs r2 t2 ys. unfold areEqual.
    cbn [Array_isArray andb Array_length].
    destruct (List.length xs =? List.length ys)%nat eqn:Hlen; cbn [negb].
    2:{ apply Nat.eqb_neq in Hlen. split; [discriminate|]. intros [H _]. contradiction. }
    apply Nat.eqb_eq in Hlen.
    destruct (List.length xs =? 0)%nat eqn:Hzero.
    { apply Nat.eqb_eq in Hzero. split; [discriminate|]. intros [_ [H _]]. contradiction. }
    apply Nat.eqb_neq in Hzero.
    destruct (JSON_stringify (VArray r1 t1 xs)) as [pa|e] eqn:Ha; cbn [bind].
    2:{ split; [discriminate|]. intros [_ [_ [text [H _]]]]. discriminate. }
    destruct (JSON_stringify (VArray r2 t2 ys)) as [pb|e] eqn:Hb; cbn [bind].
    2:{ split; [discriminate|]. intros [_ [_ [text [_ H]]]]. discriminate. }
    destruct (JSON_stringify_array_text _ _ _ _ Ha) as [ta ->].
    destruct (JSON_stringify_array_text _ _ _ _ Hb) as [tb ->].
    cbn [same_text]. split.
    - intros H. injection H as H. apply String.eqb_eq in H. subst tb.
      repeat split; try assumption. now exists ta.
    - intros [_ [_ [text [H1 H2]]]]. injection H1 as ->. injection H2 as ->.
      now rewrite String.eqb_refl. }
  split; [exact Hgen|]. split; [|reflexivity].
  intros r1 t1 ss r2 t2 ts. rewrite Hgen, !JSON_stringify_strings, !length_map.
  split.
  - intros [Hlen [Hnz [text [H1 H2]]]]. repeat split; try assumption.
    injection H1 as H1. injection H2 as H2. rewrite <- H2 in H1.
    injection H1 as H1.
    apply concat_QuoteJSONString_inj in H1. now subst.
  - intros [Hlen [Hnz Hnth]]. repeat split; try assumption.
    assert (Heq : ss = ts) by now apply nth_error_ext.
    subst ts. eexists; split; reflexivity.
Qed.

(** *** The tests of the source *)

Example test_getType :
  getType (VBoolean true) = "boolean" /\
  getType (number 123) = "number" /\
  getType (VString "whoo") = "string" /\
  getType (VArray 1 TagAbsent []) = "object" /\
  getType (plain_object 1) = "object" /\
  getType (VObject 1 CFunction TagAbsent JsonUndefined) = "function" /\
  getType VUndefined = "undefined" /\
  getType VNull = "object".
Proof. repeat split; reflexivity. Qed.

Example test_allItemsHaveTheSameType :
  allItemsHaveTheSameType [number 11; number 12; number 13] = true /\
  allItemsHaveTheSameType [VString "11"; VString "12"; VString "13"] = true /\
  allItemsHaveTheSameType
    [VString "11"; VObject 1 CString TagAbsent (JsonText (QuoteJSONString "12"));
     VString "13"] = false /\
  allItemsHaveTheSameType [number 123; VNumber NaN; VNumber Infinity] = true /\
  allItemsHaveTheSameType [plain_object 1] = true.
Proof. repeat split; reflexivity. Qed.

Example test_basic_types :
  getTypesOfItems knownTypes = expected_types /\
  areEqual (strings 20 (getTypesOfItems knownTypes)) (strings 21 expected_types)
    = Returns true.
Proof. split; reflexivity. Qed.

Example test_real_types :
  getRealTypesOfItems knownTypes = Returns expected_real_types /\
  areEqual (strings 20 expected_real_types) (strings 21 expected_real_types)
    = Returns true.
Proof. split; reflexivity. Qed.

Example test_everyItemHasAUniqueRealType :
  everyItemHasAUniqueRealType [VBoolean true; number 123; VString "123"] = Returns true /\
  everyItemHasAUniqueRealType [VBoolean true; number 123; VBoolean false] = Returns false /\
  everyItemHasAUniqueRealType knownTypes = Returns true.
Proof. repeat split; reflexivity. Qed.

Example test_countRealTypes :
  countRealTypes [VBoolean true; VNull; VBoolean true; VBoolean false; plain_object 1]
    = Returns [("boolean", PNumber 3); ("null", PNumber 1); ("object", PNumber 1)] /\
  countRealTypes [plain_object 1; VNull; VBoolean true; VBoolean true; VBoolean false]
    = Returns [("boolean", PNumber 3); ("null", PNumber 1); ("object", PNumber 1)] /\
  countRealTypes [VArray 1 TagAbsent []; number 1; VBoolean true; VBoolean false;
                  VBoolean true; number 2]
    = Returns [("array", PNumber 1); ("boolean", PNumber 3); ("number", PNumber 2)].
Proof. repeat split; reflexivity. Qed.

Example test_areEqual_empty :
  areEqual (VArray 1 TagAbsent []) (VArray 2 TagAbsent []) = Returns false.
Proof. reflexivity. Qed.

(** [Number::toString] at 0.1, 10^21, 2^-1074 and 123456.75. *)
Example Number_toString_samples :
  Number_toString (S754_finite false 7205759403792794 (-56)) = "0.1" /\
  Number_toString (S754_finite false 476837158203125 21) = "1e+21" /\
  Number_toString (S754_finite false 1 (-1074)) = "5e-324" /\
  Number_toString (S754_finite true 493827 (-2)) = "-123456.75".
Proof. vm_compute. repeat split; reflexivity. Qed.

(** ** Further results *)

(** *** [getType] and [getTypesOfItems] *)



(** *** [allItemsHaveTheSameType] *)





(** *** [getRealType] on primitives and on built-in tags *)

(** X4: on a primitive value getRealType never throws and its result
    depends on the kind of the value only: ["NaN"], ["Infinity"], ["null"]
    for those three, and otherwise what getType returns (every other
    number, both zeros and negative infinity included, is ["number"]). *)
Theorem getRealType_primitive (v : Value) :
  is_primitive v = true ->
  getRealType v =
  Returns (if Number_isNaN v then "NaN"
           else if strict_equal v (VNumber Infinity) then "Infinity"
           else match v with
                | VNull => "null"
                | _ => getType v
                end).
Proof.
  destruct v as [| |b|x|s|k|n|r tag items|r cls tag json]; simpl;
    try discriminate; try reflexivity.
  intros _. destruct x as [z|z| |z m e]; try destruct z; reflexivity.
Qed.

Lemma getRealType_primitive_witness :
  getRealType (VNumber NegInfinity) = Returns "number".
Proof. exact (getRealType_primitive (VNumber NegInfinity) eq_refl). Defined.

(** X5: on a value that shows its built-in tag and is neither [NaN] nor
    positive infinity, getRealType returns that internal tag lower-cased. *)
Theorem getRealType_builtin_tag (v : Value) :
  shows_builtin_tag v = true ->
  Number_isNaN v = false ->
  strict_equal v (VNumber Infinity) = false ->
  exists tag, internal_tag v = Returns tag /\
              getRealType v = Returns (String_toLowerCase tag).
Proof.
  destruct v as [| |b|x|s|k|n|r tag items|r cls tag json]; simpl;
    intros Hb Hnan Hinf; try (eexists; split; reflexivity).
  - destruct x as [z|z| |z m e]; try destruct z; try discriminate;
      eexists; split; reflexivity.
  - destruct tag; try discriminate. eexists; split; reflexivity.
  - destruct tag; try discriminate. destruct cls; eexists; split; reflexivity.
Qed.

Lemma getRealType_builtin_tag_witness :
  exists tag,
    internal_tag (VObject 5 CRegExp TagAbsent (JsonText "{}")) = Returns tag /\
    getRealType (VObject 5 CRegExp TagAbsent (JsonText "{}"))
      = Returns (String_toLowerCase tag).
Proof.
  exact (getRealType_builtin_tag (VObject 5 CRegExp TagAbsent (JsonText "{}"))
           eq_refl eq_refl eq_refl).
Defined.

(** X6: getRealType throws only on an array or object that answers the
    lookup of [Symbol.toStringTag] itself, and then only when the lookup
    throws or the tag does not open with an ASCII letter. *)
Theorem getRealType_throws_only (v : Value) (e : JsError) :
  getRealType v = Throws e ->
  shows_builtin_tag v = false /\
  forall c rest, internal_tag v = Returns (String c rest) -> is_letter c = false.
Proof.
  intros H. split.
  - destruct (shows_builtin_tag v) eqn:Hb; [|reflexivity].
    destruct (getRealType_total_builtin v Hb) as [t Ht]. congruence.
  - intros c rest Htag. destruct (is_letter c) eqn:Hc; [|reflexivity].
    destruct (getRealType_total_letter_head v c rest Htag Hc) as [t Ht]. congruence.
Qed.

Lemma getRealType_throws_only_witness :
  shows_builtin_tag (VObject 1 COrdinary (TagString "42") (JsonText "{}")) = false /\
  forall c rest,
    internal_tag (VObject 1 COrdinary (TagString "42") (JsonText "{}"))
      = Returns (String c rest) ->
    is_letter c = false.
Proof.
  exact (getRealType_throws_only
           (VObject 1 COrdinary (TagString "42") (JsonText "{}")) TypeError eq_refl).
Defined.

(** *** Rearranging the input *)

Lemma Array_map_Permutation {A B : Type} (f : A -> Outcome B) (a b : list A) :
  Permutation a b ->
  forall ta, Array_map f a = Returns ta ->
  exists tb, Array_map f b = Returns tb /\ Permutation ta tb.
Proof.
  induction 1 as [|x l l' _ IH|x y l|l l' l'' _ IH1 _ IH2]; intros ta Ha.
  - exists ta. split; [assumption|]. simpl in Ha. injection Ha as <-. constructor.
  - simpl in Ha. destruct (f x) as [t|e] eqn:Hx; [|discriminate].
    cbn [bind] in Ha. destruct (Array_map f l) as [ts|e] eqn:Hl; [|discriminate].
    cbn [bind] in Ha. injection Ha as <-.
    destruct (IH ts eq_refl) as [ts' [Hl' Hp]].
    exists (t :: ts'). simpl. rewrite Hx, Hl'. split; [reflexivity|now constructor].
  - simpl in Ha. destruct (f y) as [u|e] eqn:Hy; [|discriminate].
    cbn [bind] in Ha. destruct (f x) as [t|e] eqn:Hx; [|discriminate].
    cbn [bind] in Ha. destruct (Array_map f l) as [ts|e] eqn:Hl; [|discriminate].
    cbn [bind] in Ha. injection Ha as <-.
    exists (t :: u :: ts). simpl. rewrite Hx, Hy, Hl. split; [reflexivity|constructor].
  - destruct (IH1 ta Ha) as [tb [Hb Hp1]].
    destruct (IH2 tb Hb) as [tc [Hc Hp2]].
    exists tc. split; [assumption|now transitivity tb].
Qed.

Lemma Array_map_Permutation_throws {A B : Type} (f : A -> Outcome B) (a b : list A)
    (e : JsError) :
  Permutation a b -> Array_map f a = Throws e -> Array_map f b = Throws e.
Proof.
  intros Hp Ha. destruct (Array_map f b) as [tb|e'] eqn:Hb.
  - destruct (Array_map_Permutation f b a (Permutation_sym Hp) tb Hb) as [ta [Ha' _]].
    congruence.
  - now destruct e, e'.
Qed.

Lemma distinct_length_Permutation (ta tb : list string) :
  Permutation ta tb ->
  List.length (nodup string_dec ta) = List.length (nodup string_dec tb).
Proof.
  intros Hp. apply Permutation_length, NoDup_Permutation; try apply NoDup_nodup.
  intros t. rewrite !nodup_In. split; apply Permutation_in; [assumption|now symmetry].
Qed.

(** X7: everyItemHasAUniqueRealType does not depend on the order of the
    array: a rearranged array gives the same answer, or throws as well. *)
Theorem everyItemHasAUniqueRealType_Permutation (a b : list Value) :
  Permutation a b ->
  everyItemHasAUniqueRealType a = everyItemHasAUniqueRealType b.
Proof.
  intros Hp. unfold everyItemHasAUniqueRealType, getRealTypesOfItems.
  destruct (Array_map getRealType a) as [ta|e] eqn:Ha.
  - destruct (Array_map_Permutation _ _ _ Hp ta Ha) as [tb [Hb Hperm]].
    rewrite Hb. cbn [bind]. rewrite !Set_size_distinct.
    now rewrite (distinct_length_Permutation ta tb Hperm), (Permutation_length Hp).
  - now rewrite (Array_map_Permutation_throws _ _ _ _ Hp Ha).
Qed.

Lemma everyItemHasAUniqueRealType_Permutation_witness :
  everyItemHasAUniqueRealType [VNull; VBoolean true]
  = everyItemHasAUniqueRealType [VBoolean true; VNull].
Proof.
  apply everyItemHasAUniqueRealType_Permutation. apply perm_swap.
Defined.

(** X8: countRealTypes does not depend on the order of the array: a
    rearranged array gives the same entries, or throws as well. *)
Theorem countRealTypes_Permutation (a b : list Value) :
  Permutation a b -> countRealTypes a = countRealTypes b.
Proof.
  intros Hp. unfold countRealTypes, getRealTypesOfItems.
  destruct (Array_map getRealType a) as [ta|e] eqn:Ha.
  - destruct (Array_map_Permutation _ _ _ Hp ta Ha) as [tb [Hb Hperm]].
    rewrite Hb. cbn [bind].
    assert (Hsort : Array_sort tb = Array_sort ta).
    { apply Array_sort_unique; [|apply Array_sort_sorted].
      rewrite Hperm. apply Array_sort_Permutation. }
    now rewrite Hsort.
  - now rewrite (Array_map_Permutation_throws _ _ _ _ Hp Ha).
Qed.

Lemma countRealTypes_Permutation_witness :
  countRealTypes [VNull; VBoolean true] = countRealTypes [VBoolean true; VNull].
Proof.
  apply countRealTypes_Permutation. apply perm_swap.
Defined.

(** *** The entries of [countRealTypes] *)

Lemma count_step_get_other (acc : JsObject) (t k : string) :
  t <> "__proto__" -> t <> k ->
  own_get (count_step acc t) k = own_get acc k.
Proof.
  intros Hp Hne. destruct (own_get acc t) as [v|] eqn:Hget.
  - rewrite (count_step_own acc t v Hget), (own_update_get _ _ _ _ _ Hget).
    now destruct (string_dec t k).
  - rewrite (count_step_new acc t Hget Hp), own_get_snoc.
    destruct (own_get acc k); [reflexivity|]. now destruct (string_dec t k).
Qed.

Lemma count_step_get_same (acc : JsObject) (k : string) :
  k <> "__proto__" ->
  own_get (count_step acc k) k = Some (or_zero_plus_one (Object_get acc k)).
Proof.
  intros Hp. destruct (own_get acc k) as [v|] eqn:Hget.
  - rewrite (count_step_own acc k v Hget), (own_update_get _ _ _ _ _ Hget).
    unfold Object_get. rewrite Hget. now destruct (string_dec k k).
  - rewrite (count_step_new acc k Hget Hp), own_get_snoc, Hget.
    unfold Object_get. rewrite Hget. now destruct (string_dec k k).
Qed.

Lemma ones_snoc (n : nat) : ones n ++ "1" = ones (S n).
Proof. induction n as [|n IH]; simpl; [reflexivity|]. now rewrite IH. Qed.

Lemma entry_for_constructor (n : nat) :
  entry_for "constructor" n = PString (Function_prototype_toString "Object" ++ ones n).
Proof. reflexivity. Qed.

Lemma entry_for_other (k : string) (n : nat) :
  k <> "constructor" -> entry_for k n = PNumber n.
Proof.
  intros H. unfold entry_for. apply String.eqb_neq in H. now rewrite H.
Qed.

Lemma constructor_slot_step (n : nat) :
  or_zero_plus_one (GotOwn (PString (Function_prototype_toString "Object" ++ ones n)))
  = PString (Function_prototype_toString "Object" ++ ones (S n)).
Proof. rewrite <- ones_snoc, <- String_append_assoc. reflexivity. Qed.

(** The slot of a tag after the callback has run over a list of tags. *)
Lemma fold_count_step_slot (ts : list string) :
  Forall (fun t => tag_like t = true) ts ->
  forall k, tag_like k = true ->
  own_get (fold_left count_step ts []) k =
  match count_occ string_dec ts k with
  | O => None
  | S n => Some (entry_for k (S n))
  end.
Proof.
  induction ts as [|t ts IH] using rev_ind; intros Hts k Hk; [reflexivity|].
  apply Forall_app in Hts as [Hts Ht]. inversion Ht as [|? ? Htl _]; subst.
  rewrite fold_left_app, count_occ_app. cbn [fold_left count_occ].
  specialize (IH Hts k Hk).
  destruct (string_dec t k) as [->|Hne].
  - rewrite count_step_get_same by now apply tag_like_not_proto.
    unfold Object_get. rewrite IH, Nat.add_1_r.
    destruct (count_occ string_dec ts k) as [|n]; cbv beta iota; f_equal.
    + destruct (String.eqb_spec k "constructor") as [->|Hc]; [reflexivity|].
      now rewrite (tag_like_prototype k Hk Hc), entry_for_other.
    + destruct (String.eqb_spec k "constructor") as [->|Hc].
      * rewrite !entry_for_constructor. apply constructor_slot_step.
      * rewrite !entry_for_other by assumption. cbn [or_zero_plus_one].
        f_equal. lia.
  - rewrite count_step_get_other; [|now apply tag_like_not_proto|assumption].
    now rewrite Nat.add_0_r.
Qed.

Lemma countRealTypes_result (arr : list Value) (tags : list string) :
  getRealTypesOfItems arr = Returns tags ->
  let result := fold_left count_step (Array_sort tags) [] in
  countRealTypes arr = Returns result /\
  StronglySorted String_lt (keys result) /\
  forall k, In k (keys result) <-> In k tags.
Proof.
  intros Htags result. unfold countRealTypes. rewrite Htags. cbn [bind].
  pose proof (getRealTypesOfItems_tag_like arr tags Htags) as Hlike.
  apply Array_sort_Forall in Hlike.
  destruct (fold_count_step_keys (Array_sort tags) []) as [Hs Hk].
  { constructor. }
  { intros k t []. }
  { apply Array_sort_sorted. }
  { eapply Forall_impl; [|exact Hlike]. apply tag_like_not_proto. }
  fold result in Hs, Hk.
  assert (Hmem : forall k, In k (keys result) <-> In k tags).
  { intros k. rewrite Hk. simpl. split.
    - intros [[]|H]. apply Permutation_in with (Array_sort tags); [|assumption].
      symmetry. apply Array_sort_Permutation.
    - intros H. right.
      apply Permutation_in with tags; [apply Array_sort_Permutation|assumption]. }
  split; [|split; assumption].
  apply (f_equal Returns). apply Object_entries_no_index.
  apply Forall_forall. intros k Hin. apply tag_like_not_index.
  apply Hk in Hin as [[]|Hin]. rewrite Forall_forall in Hlike. now apply Hlike.
Qed.

Lemma pairs_map {A B : Type} (f : A -> B) (l : list (A * B)) :
  (forall k v, In (k, v) l -> v = f k) ->
  l = map (fun k => (k, f k)) (map fst l).
Proof.
  induction l as [|[k v] l IH]; intros H; simpl; [reflexivity|].
  rewrite (H k v (or_introl eq_refl)). f_equal.
  apply IH. intros k' v' Hin. apply H. now right.
Qed.

Lemma StronglySorted_lt_le (l : list string) :
  StronglySorted String_lt l -> StronglySorted String_le l.
Proof.
  induction 1 as [|x l _ IH Hx]; constructor; [assumption|].
  eapply Forall_impl; [|exact Hx]. intros y Hy. apply String_le_lt_or_eq. now left.
Qed.

(** X9: whenever classify returns on every element, countRealTypes returns
    one entry per distinct tag, in ascending order of the tags; the entry
    of a tag met [n] times holds the number [n], except that the entry of
    the tag [constructor] holds the source text of [Object] followed by
    [n] digits 1. *)
Theorem countRealTypes_entries (arr : list Value) (tags : list string) :
  getRealTypesOfItems arr = Returns tags ->
  countRealTypes arr =
  Returns (map (fun k => (k, entry_for k (count_occ string_dec tags k)))
               (Array_sort (nodup string_dec tags))).
Proof.
  intros Htags.
  destruct (countRealTypes_result arr tags Htags) as [Hrun [Hs Hmem]].
  set (result := fold_left count_step (Array_sort tags) []) in *.
  rewrite Hrun. f_equal.
  pose proof (getRealTypesOfItems_tag_like arr tags Htags) as Hlike.
  pose proof (StronglySorted_lt_NoDup _ Hs) as Hnd.
  assert (Hkeys : keys result = Array_sort (nodup string_dec tags)).
  { apply Array_sort_unique; [|now apply StronglySorted_lt_le].
    apply NoDup_Permutation; [apply NoDup_nodup|assumption|].
    intros k. now rewrite nodup_In, Hmem. }
  rewrite <- Hkeys. apply pairs_map. intros k v Hin.
  assert (Hk : In k tags).
  { apply Hmem. change k with (fst (k, v)). now apply in_map. }
  pose proof (In_own_get result k v Hnd Hin) as Hget.
  unfold result in Hget. rewrite fold_count_step_slot in Hget.
  - rewrite <- (proj1 (Permutation_count_occ string_dec _ _)
                  (Array_sort_Permutation tags) k) in Hget.
    destruct (count_occ string_dec tags k); [discriminate|]. now injection Hget.
  - now apply Array_sort_Forall.
  - rewrite Forall_forall in Hlike. now apply Hlike.
Qed.

Lemma countRealTypes_entries_witness :
  countRealTypes [VBoolean true; VNull; VBoolean false] =
  Returns (map (fun k => (k, entry_for k
                               (count_occ string_dec ["boolean"; "null"; "boolean"] k)))
               (Array_sort (nodup string_dec ["boolean"; "null"; "boolean"]))).
Proof.
  exact (countRealTypes_entries [VBoolean true; VNull; VBoolean false]
           ["boolean"; "null"; "boolean"] eq_refl).
Defined.

(** X10: the tags of the entries countRealTypes returns are in strictly
    ascending order, and a tag occurs among them exactly when classify
    returns it on some element of the array. *)
Theorem countRealTypes_tags (arr : list Value) (entries : list (string * PropValue)) :
  countRealTypes arr = Returns entries ->
  StronglySorted String_lt (keys entries) /\
  forall k, In k (keys entries) <->
            exists v, In v arr /\ getRealType v = Returns k.
Proof.
  intros Hrun. destruct (getRealTypesOfItems arr) as [tags|e] eqn:Htags.
  2:{ unfold countRealTypes in Hrun. rewrite Htags in Hrun. discriminate. }
  destruct (countRealTypes_result arr tags Htags) as [Hrun' [Hs Hmem]].
  rewrite Hrun in Hrun'. injection Hrun' as ->.
  split; [assumption|]. intros k. rewrite Hmem. split.
  - apply (Array_map_In _ _ _ Htags).
  - intros [v [Hv Hk]]. apply Array_map_Forall2 in Htags.
    clear - Htags Hv Hk. induction Htags as [|w t l ts Hw _ IH]; [contradiction|].
    destruct Hv as [->|Hv]; [left; congruence|right; now apply IH].
Qed.

Lemma countRealTypes_tags_witness :
  StronglySorted String_lt (keys [("boolean", PNumber 1); ("null", PNumber 2)]) /\
  forall k, In k (keys [("boolean", PNumber 1); ("null", PNumber 2)]) <->
            exists v, In v [VNull; VBoolean true; VNull] /\ getRealType v = Returns k.
Proof.
  exact (countRealTypes_tags [VNull; VBoolean true; VNull]
           [("boolean", PNumber 1); ("null", PNumber 2)] eq_refl).
Defined.





(** *** [areEqual] *)

Lemma SFeqb_sym (x y : spec_float) : SFeqb x y = SFeqb y x.
Proof.
  assert (Hm : forall p q, Pos.compare_cont Eq q p = CompOpp (Pos.compare_cont Eq p q)).
  { intros p q. symmetry. apply (Pos.compare_cont_antisym p q Eq). }
  unfold SFeqb, SFcompare.
  destruct x as [sx|sx| |sx mx ex], y as [sy|sy| |sy my ey];
    try destruct sx; try destruct sy; try reflexivity;
    rewrite (Z.compare_antisym ey ex), (Hm mx my);
    destruct (ey ?= ex)%Z; destruct (Pos.compare_cont Eq mx my); reflexivity.
Qed.

Lemma SFeqb_refl (x : spec_float) : x <> S754_nan -> SFeqb x x = true.
Proof.
  unfold SFeqb, SFcompare.
  destruct x as [sx|sx| |sx mx ex]; try destruct sx; intros H;
    try reflexivity; try contradiction;
    now rewrite Z.compare_refl, Pos.compare_cont_refl.
Qed.

Lemma strict_equal_sym (a b : Value) : strict_equal a b = strict_equal b a.
Proof.
  destruct a, b; simpl; try reflexivity.
  - now destruct b, b0.
  - apply SFeqb_sym.
  - apply String.eqb_sym.
  - apply Nat.eqb_sym.
  - apply Z.eqb_sym.
  - apply Nat.eqb_sym.
  - apply Nat.eqb_sym.
Qed.

Lemma same_text_sym (a b : option string) : same_text a b = same_text b a.
Proof. destruct a, b; simpl; try reflexivity. apply String.eqb_sym. Qed.

(** X13: areEqual is symmetric: swapping actual and expected changes
    neither the verdict nor whether the comparison throws. *)
Theorem areEqual_symmetric (a b : Value) : areEqual a b = areEqual b a.
Proof.
  unfold areEqual. rewrite (andb_comm (Array_isArray b)).
  destruct (Array_isArray a && Array_isArray b).
  - rewrite (Nat.eqb_sym (Array_length b)).
    destruct (Array_length a =? Array_length b)%nat eqn:Hlen; cbn [negb]; [|reflexivity].
    apply Nat.eqb_eq in Hlen. rewrite <- Hlen.
    destruct (Array_length a =? 0)%nat; [reflexivity|].
    destruct (JSON_stringify a) as [sa|[]], (JSON_stringify b) as [sb|[]];
      cbn [bind]; try reflexivity.
    now rewrite same_text_sym.
  - now rewrite strict_equal_sym.
Qed.

(** X14: areEqual is not reflexive.  A value that is not an array equals
    itself unless it is [NaN]; an array equals itself exactly when it is
    not empty and [JSON.stringify] returns on it. *)
Theorem areEqual_self (v : Value) :
  (Array_isArray v = false -> areEqual v v = Returns (negb (Number_isNaN v))) /\
  (Array_isArray v = true ->
   (areEqual v v = Returns true <->
    Array_length v <> 0 /\ exists text, JSON_stringify v = Returns (Some text))).
Proof.
  split; intros Harr.
  - unfold areEqual. rewrite Harr. cbn [andb]. f_equal.
    destruct v as [| |b|x|s|k|n|r tag items|r cls tag json]; simpl;
      try reflexivity; try discriminate.
    + now destruct b.
    + destruct x as [sx|sx| |sx mx ex]; try reflexivity; now apply SFeqb_refl.
    + apply String.eqb_refl.
    + apply Nat.eqb_refl.
    + apply Z.eqb_refl.
    + apply Nat.eqb_refl.
  - destruct v as [| |b|x|s|k|n|r tag items|r cls tag json]; try discriminate.
    unfold areEqual. cbn [Array_isArray andb Array_length].
    rewrite Nat.eqb_refl. cbn [negb].
    destruct (List.length items =? 0)%nat eqn:Hz.
    + apply Nat.eqb_eq in Hz. split; [discriminate|]. intros [H _]. contradiction.
    + apply Nat.eqb_neq in Hz.
      destruct (JSON_stringify (VArray r tag items)) as [p|e] eqn:Hj; cbn [bind].
      * destruct (JSON_stringify_array_text _ _ _ _ Hj) as [text ->].
        cbn [same_text]. rewrite String.eqb_refl. split; [|reflexivity].
        intros _. split; [assumption|now exists text].
      * split; [discriminate|]. intros [_ [text H]]. discriminate.
Qed.

Lemma areEqual_self_witness :
  areEqual (VNumber NaN) (VNumber NaN) = Returns (negb (Number_isNaN (VNumber NaN))).
Proof. exact (proj1 (areEqual_self (VNumber NaN)) eq_refl). Defined.

(** X15: an array and a value that is not an array are never equal, and
    areEqual throws only when both arguments are arrays of the same
    non-zero length and [JSON.stringify] throws on one of them. *)
Theorem areEqual_throws_only (a b : Value) :
  (Array_isArray a = true -> Array_isArray b = false ->
   areEqual a b = Returns false /\ areEqual b a = Returns false) /\
  (forall e, areEqual a b = Throws e ->
     Array_isArray a = true /\ Array_isArray b = true /\
     Array_length a = Array_length b /\ Array_length a <> 0 /\
     (JSON_stringify a = Throws e \/ JSON_stringify b = Throws e)).
Proof.
  split.
  - intros Ha Hb. unfold areEqual. rewrite Ha, Hb. cbn [andb].
    destruct a; try discriminate; destruct b; try discriminate; split; reflexivity.
  - intros e. unfold areEqual.
    destruct (Array_isArray a); [|discriminate].
    destruct (Array_isArray b); [|discriminate]. cbn [andb].
    destruct (Array_length a =? Array_length b)%nat eqn:Hlen; cbn [negb]; [|discriminate].
    destruct (Array_length a =? 0)%nat eqn:Hz; [discriminate|].
    apply Nat.eqb_eq in Hlen. apply Nat.eqb_neq in Hz.
    destruct (JSON_stringify a) as [sa|ea]; cbn [bind].
    + destruct (JSON_stringify b) as [sb|eb]; cbn [bind]; [discriminate|].
      intros H. injection H as ->. repeat split; auto.
    + intros H. injection H as ->. repeat split; auto.
Qed.

Lemma areEqual_throws_only_witness :
  areEqual (VArray 1 TagAbsent [VNull]) VNull = Returns false /\
  areEqual VNull (VArray 1 TagAbsent [VNull]) = Returns false.
Proof.
  exact (proj1 (areEqual_throws_only (VArray 1 TagAbsent [VNull]) VNull)
           eq_refl eq_refl).
Defined.

Lemma SerializeJSONElements_null (xs : list Value) :
  Forall (fun v => prints_null v = true) xs ->
  SerializeJSONElements xs = Returns (repeat "null" (List.length xs)).
Proof.
  induction 1 as [|v xs Hv _ IH]; [reflexivity|].
  cbn [SerializeJSONElements List.length repeat]. rewrite IH.
  destruct v as [| |b|x|s|k|n|r tag items|r cls tag json]; try discriminate;
    try reflexivity.
  - destruct x; try discriminate; reflexivity.
  - destruct json; try discriminate. reflexivity.
Qed.

(** X20: areEqual cannot tell apart the values that JSON writes as null:
    two arrays of the same non-zero length whose elements are all among
    undefined, null, NaN, the infinities, symbols and values without a
    JSON text (functions) are declared equal. *)
Theorem areEqual_null_like (r1 r2 : nat) (t1 t2 : TagLookup) (xs ys : list Value) :
  Forall (fun v => prints_null v = true) xs ->
  Forall (fun v => prints_null v = true) ys ->
  List.length xs = List.length ys ->
  List.length xs <> 0 ->
  areEqual (VArray r1 t1 xs) (VArray r2 t2 ys) = Returns true.
Proof.
  intros Hxs Hys Hlen Hnz. unfold areEqual.
  cbn [Array_isArray andb Array_length].
  rewrite (proj2 (Nat.eqb_eq _ _) Hlen), (proj2 (Nat.eqb_neq _ _) Hnz). cbn [negb].
  unfold JSON_stringify. rewrite !SerializeJSONProperty_array.
  rewrite (SerializeJSONElements_null xs Hxs), (SerializeJSONElements_null ys Hys), Hlen.
  cbn [bind same_text]. now rewrite String.eqb_refl.
Qed.

Lemma areEqual_null_like_witness :
  areEqual (VArray 1 TagAbsent [VNumber NaN; VUndefined])
           (VArray 2 TagAbsent [VNull; VNumber NegInfinity]) = Returns true.
Proof.
  apply areEqual_null_like.
  - repeat constructor.
  - repeat constructor.
  - reflexivity.
  - discriminate.
Defined.




(** *** The harness *)

Lemma testBlock_depth (name : string) (c : Console) : depth (testBlock name c) = S (Nat.pred (depth c)).
Proof. reflexivity. Qed.

Lemma prefix_OK (s : string) : String.prefix "[OK] " ("[OK] " ++ s) = true.
Proof. cbn. now destruct s. Qed.

Lemma test_lines (name : string) (actual expected : Value) (c c' : Console) :
  test name actual expected c = Returns c' ->
  depth c' = depth c /\
  exists lines,
    output c' = (output c ++ lines)%list /\
    List.length (filter is_ok_line lines)
      = (if passes (CallTest name actual expected) then 1 else 0) /\
    List.length (filter is_error_line lines)
      = (if fails (CallTest name actual expected) then 1 else 0).
Proof.
  unfold test, passes, fails.
  destruct (areEqual actual expected) as [[|]|e]; cbn [bind]; [| |discriminate];
    intros H; injection H as <-; (split; [reflexivity|]).
  - exists [ {| level := LevelLog; indent := depth c;
                printed := VString ("[OK] " ++ name ++ newline) |} ].
    split; [reflexivity|].
    cbn [filter is_ok_line is_error_line level printed].
    rewrite prefix_OK. split; reflexivity.
  - eexists. split.
    + cbn [console_log console_debug console_error console_print output depth].
      rewrite <- !app_assoc. reflexivity.
    + split; reflexivity.
Qed.

(** X16: in a run of the harness from a console with at most one open
    group, blocks never nest: at most one group is open at the end, and
    exactly one as soon as the run calls testBlock. *)
Theorem run_depth (calls : list Call) (c c' : Console) :
  run calls c = Returns c' ->
  depth c <= 1 ->
  depth c' <= 1 /\ (existsb is_block calls = true -> depth c' = 1).
Proof.
  revert c; induction calls as [|k calls IH]; intros c Hrun Hd.
  - simpl in Hrun. injection Hrun as <-. split; [assumption|discriminate].
  - cbn [run] in Hrun. destruct (call k c) as [c1|e] eqn:Hk; [|discriminate].
    cbn [bind] in Hrun. destruct k as [name|name actual expected]; cbn [call] in Hk.
    + injection Hk as <-.
      assert (Hd1 : depth (testBlock name c) = 1).
      { rewrite testBlock_depth. destruct (depth c) as [|[|d]]; simpl; lia. }
      destruct (IH _ Hrun) as [Hle Hblock]; [lia|].
      split; [assumption|]. intros _.
      destruct (existsb is_block calls) eqn:Hb; [now apply Hblock|].
      clear - Hrun Hb Hd1. revert Hrun Hd1. generalize (testBlock name c).
      induction calls as [|k calls IHc]; intros c0 Hrun Hd1.
      * simpl in Hrun. now injection Hrun as <-.
      * cbn [existsb] in Hb. apply orb_false_iff in Hb as [Hk Hb].
        destruct k as [n|n a x]; [discriminate|].
        cbn [run call] in Hrun.
        destruct (test n a x c0) as [c1|e] eqn:Ht; [|discriminate].
        cbn [bind] in Hrun. apply test_lines in Ht as [Hdep _].
        apply (IHc Hb c1 Hrun). congruence.
    + apply test_lines in Hk as [Hdep _].
      destruct (IH _ Hrun) as [Hle Hblock]; [lia|].
      split; [assumption|]. cbn [existsb is_block orb]. exact Hblock.
Qed.

Lemma run_depth_witness :
  depth (console_log (VString ("[OK] Null" ++ newline))
           (testBlock "getType" {| depth := 0; output := [] |})) <= 1 /\
  (existsb is_block [CallTestBlock "getType"; CallTest "Null" VNull VNull] = true ->
   depth (console_log (VString ("[OK] Null" ++ newline))
            (testBlock "getType" {| depth := 0; output := [] |})) = 1).
Proof.
  apply (run_depth [CallTestBlock "getType"; CallTest "Null" VNull VNull]
           {| depth := 0; output := [] |}).
  - reflexivity.
  - simpl. lia.
Defined.

(** X17: the report of a run is faithful: a run that returns has only
    added lines to the console, one [[OK]] log line for each test whose
    comparison returned true and one error line for each test whose
    comparison returned false. *)
Theorem run_report (calls : list Call) (c c' : Console) :
  run calls c = Returns c' ->
  exists lines,
    output c' = (output c ++ lines)%list /\
    List.length (filter is_ok_line lines) = List.length (filter passes calls) /\
    List.length (filter is_error_line lines) = List.length (filter fails calls).
Proof.
  revert c; induction calls as [|k calls IH]; intros c Hrun.
  - simpl in Hrun. injection Hrun as <-. exists []. now rewrite app_nil_r.
  - cbn [run] in Hrun. destruct (call k c) as [c1|e] eqn:Hk; [|discriminate].
    cbn [bind] in Hrun. destruct (IH _ Hrun) as [rest [Hout [Hok Herr]]].
    destruct k as [name|name actual expected]; cbn [call] in Hk.
    + injection Hk as <-. eexists. split.
      * rewrite Hout. cbn [testBlock console_group console_groupEnd console_print output depth].
        rewrite <- app_assoc. reflexivity.
      * cbn [filter passes fails app is_ok_line is_error_line level]. now split.
    + apply test_lines in Hk as [_ [lines [Hlines [Hok1 Herr1]]]].
      exists (lines ++ rest)%list. split.
      * now rewrite Hout, Hlines, app_assoc.
      * rewrite !filter_app, !length_app, Hok1, Herr1, Hok, Herr.
        cbn [filter].
        destruct (passes (CallTest name actual expected)),
                 (fails (CallTest name actual expected)); split; reflexivity.
Qed.

Lemma run_report_witness :
  exists lines,
    output (console_log (VString ("[OK] Null" ++ newline)) {| depth := 0; output := [] |})
      = ([] ++ lines)%list /\
    List.length (filter is_ok_line lines)
      = List.length (filter passes [CallTest "Null" VNull VNull]) /\
    List.length (filter is_error_line lines)
      = List.length (filter fails [CallTest "Null" VNull VNull]).
Proof.
  exact (run_report [CallTest "Null" VNull VNull] {| depth := 0; output := [] |}
           _ eq_refl).
Defined.

(** X18: a run of the harness throws exactly when the comparison of one of
    its tests throws. *)
Theorem run_throws (calls : list Call) (c : Console) (e : JsError) :
  run calls c = Throws e <->
  exists name actual expected,
    In (CallTest name actual expected) calls /\ areEqual actual expected = Throws e.
Proof.
  revert c; induction calls as [|k calls IH]; intros c.
  - simpl. split; [discriminate|]. intros [? [? [? [[] _]]]].
  - cbn [run]. destruct k as [name|name actual expected]; cbn [call bind].
    + rewrite IH. split; intros [n [a [x [Hin Hthrow]]]]; exists n, a, x.
      * split; [now right|assumption].
      * destruct Hin as [Heq|Hin]; [discriminate|]. now split.
    + unfold test. destruct (areEqual actual expected) as [b|e'] eqn:Heq; cbn [bind].
      * assert (Hstep : forall c1, run calls c1 = Throws e <->
                  exists n a x, In (CallTest n a x) (CallTest name actual expected :: calls)
                                /\ areEqual a x = Throws e).
        { intros c1. rewrite IH. split; intros [n [a [x [Hin Hthrow]]]]; exists n, a, x.
          - split; [now right|assumption].
          - destruct Hin as [Hhead|Hin]; [|now split].
            injection Hhead as <- <- <-. congruence. }
        destruct b; cbn [bind]; apply Hstep.
      * split.
        -- intros H. injection H as <-. exists name, actual, expected.
           split; [now left|assumption].
        -- intros _. now destruct e, e'.
Qed.

(** *** The script *)

(** X19: the script of the source runs to its end without throwing: its
    five blocks and twenty-two tests print twenty-seven lines, every test
    logs [[OK]] and no error line is printed. *)
Theorem script_report :
  exists c,
    script = Returns c /\
    depth c = 1 /\
    List.length (output c) = 27 /\
    List.length (filter is_ok_line (output c)) = 22 /\
    filter is_error_line (output c) = [].
Proof.
  eexists. split; [vm_compute; reflexivity|]. vm_compute. repeat split.
Qed.
